(** * Taiga MCP bridge: session registry and optimistic-update protocol

    A shallow embedding of the session store ([src/tools/common.py],
    [src/tools/auth.py]) and of the read-version-then-edit update tools
    ([src/tools/project.py], [story.py], [task.py], [issue.py], [epic.py],
    [milestone.py]), followed by the properties of the specification that
    concern them.

    Conventions of the embedding.
    - A Python value (the JSON the REST client returns, keyword arguments,
      tool results) is a [value]; a [dict] is an association list in
      insertion order with unique keys.
    - A Python string is the [string] of its UTF-8 bytes.  [str.strip]
      removes the code points Python counts as whitespace; [str.lower]
      depends on the interpreter's Unicode tables and is taken from the
      class [PyUnicode].
    - A tool is a computation in the monad [M]: it threads the [world] (the
      environment of the process, the module-level [active_sessions] dict
      and the log of REST calls issued so far) and either returns or raises.
      State changes made before a [raise] are kept, as in Python.
    - Logging ([logger.*], [log_operation], [log_success]) has no effect on
      the results and is left out. *)

From stdpp Require Import base option list strings pretty gmap.
From Stdlib Require Import ZArith Ascii String Lia.

Local Open Scope string_scope.
Local Open Scope Z_scope.
Local Open Scope list_scope.

(* ===================================================================== *)
(** ** Python values *)
(* ===================================================================== *)

#[warnings="-register-all"]
Inductive value : Type :=
| VNone
| VBool (b : bool)
| VInt (z : Z)
| VStr (s : string)
| VList (l : list value)
| VDict (d : list (string * value)).

Abbreviation dict := (list (string * value)).

(** [bool(v)]: the truth value Python gives to [v] in [if v] / [not v]. *)
Definition truthy (v : value) : bool :=
  match v with
  | VNone => false
  | VBool b => b
  | VInt z => negb (z =? 0)
  | VStr s => negb (String.eqb s "")
  | VList l => match l with [] => false | _ => true end
  | VDict d => match d with [] => false | _ => true end
  end.

(** [type(v).__name__], as it appears in the interpreter's messages. *)
Definition type_name (v : value) : string :=
  match v with
  | VNone => "NoneType"
  | VBool _ => "bool"
  | VInt _ => "int"
  | VStr _ => "str"
  | VList _ => "list"
  | VDict _ => "dict"
  end.

Module Dict.

(** [d.get(k)] on the association list. *)
Fixpoint get (k : string) (d : dict) : option value :=
  match d with
  | [] => None
  | (k', v) :: d' => if String.eqb k k' then Some v else get k d'
  end.

(** [d[k] = v]: overwrite in place when the key exists, append otherwise. *)
Fixpoint set (k : string) (v : value) (d : dict) : dict :=
  match d with
  | [] => [(k, v)]
  | (k', v') :: d' =>
      if String.eqb k k' then (k, v) :: d' else (k', v') :: set k v d'
  end.

(** [d.update(other)]. *)
Definition update (d other : dict) : dict :=
  fold_left (fun acc kv => set (fst kv) (snd kv) acc) other d.

(** [not d]. *)
Definition is_empty (d : dict) : bool :=
  match d with [] => true | _ => false end.

Definition has_key (k : string) (d : dict) : bool :=
  match get k d with Some _ => true | None => false end.

End Dict.

(* ===================================================================== *)
(** ** Python strings *)
(* ===================================================================== *)

Module Str.

(** ASCII case folding: [A]-[Z] to [a]-[z], every other byte unchanged.
    It is what [str.lower] does on ASCII text, and the lower-casing of the
    sample interpreter below. *)
Definition lower_ascii_char (c : ascii) : ascii :=
  let n := nat_of_ascii c in
  if ((65 <=? n) && (n <=? 90))%nat then ascii_of_nat (n + 32) else c.

Fixpoint lower_ascii (s : string) : string :=
  match s with
  | EmptyString => EmptyString
  | String c s' => String (lower_ascii_char c) (lower_ascii s')
  end.

(** [needle in hay] for two strings.  UTF-8 is self-synchronising, so
    one text occurs in another as bytes exactly when it does as
    characters. *)
Fixpoint contains (needle hay : string) : bool :=
  String.prefix needle hay ||
  match hay with
  | EmptyString => false
  | String _ hay' => contains needle hay'
  end.

(** A continuation byte of UTF-8 ([10xxxxxx]). *)
Definition is_continuation (c : ascii) : bool :=
  let n := nat_of_ascii c in
  ((128 <=? n) && (n <? 192))%nat.

Definition starts_with_continuation (s : string) : bool :=
  match s with
  | EmptyString => false
  | String c _ => is_continuation c
  end.

(** The characters (code points) of a string, each as the string of its
    bytes: a byte opens a new character unless it is a continuation byte. *)
Fixpoint chars (s : string) : list string :=
  match s with
  | EmptyString => []
  | String c s' =>
      match chars s' with
      | [] => [String c EmptyString]
      | w :: ws =>
          if starts_with_continuation s' then String c w :: ws
          else String c EmptyString :: w :: ws
      end
  end.

(** The string with the given bytes. *)
Definition of_bytes (bytes : list nat) : string :=
  string_of_list_ascii (List.map ascii_of_nat bytes).

(** The code points for which [str.isspace] holds, which are the ones
    [str.strip()] removes: U+0009-U+000D, U+001C-U+001F, U+0020, U+0085,
    U+00A0, U+1680, U+2000-U+200A, U+2028, U+2029, U+202F, U+205F,
    U+3000. *)
Definition whitespace : list string :=
  List.map of_bytes
    [[9]; [10]; [11]; [12]; [13]; [28]; [29]; [30]; [31]; [32];
     [194; 133]; [194; 160]; [225; 154; 128];
     [226; 128; 128]; [226; 128; 129]; [226; 128; 130]; [226; 128; 131];
     [226; 128; 132]; [226; 128; 133]; [226; 128; 134]; [226; 128; 135];
     [226; 128; 136]; [226; 128; 137]; [226; 128; 138];
     [226; 128; 168]; [226; 128; 169]; [226; 128; 175];
     [226; 129; 159]; [227; 128; 128]]%nat.

(** Whether a character is whitespace. *)
Definition is_space (ch : string) : bool :=
  existsb (String.eqb ch) whitespace.

(** Drops leading whitespace. *)
Fixpoint lstrip (l : list string) : list string :=
  match l with
  | [] => []
  | ch :: l' => if is_space ch then lstrip l' else l
  end.

(** Drops trailing whitespace; the result of the tail decides whether a
    whitespace character is still trailing. *)
Fixpoint rstrip (l : list string) : list string :=
  match l with
  | [] => []
  | ch :: l' =>
      match rstrip l' with
      | [] => if is_space ch then [] else [ch]
      | t => ch :: t
      end
  end.

(** The string made of the given characters. *)
Definition of_chars (l : list string) : string :=
  fold_right String.append EmptyString l.

(** [s.strip()]. *)
Definition strip (s : string) : string := of_chars (rstrip (lstrip (chars s))).

(** [s.split(sep)] for a one-character separator: the result is never
    empty, and [n] separators give [n + 1] fields. *)
Fixpoint split (sep : ascii) (s : string) : list string :=
  match s with
  | EmptyString => [EmptyString]
  | String c s' =>
      if Ascii.eqb c sep then EmptyString :: split sep s'
      else match split sep s' with
           | [] => [String c EmptyString]
           | w :: ws => String c w :: ws
           end
  end.

(** [[tag.strip() for tag in tags.split(',') if tag.strip()]]. *)
Definition parse_tags (tags : string) : list string :=
  List.filter (fun t => negb (String.eqb t ""))
    (List.map strip (split "," tags)).

(** [str(n)] for an [int]. *)
Definition of_int (n : Z) : string := pretty n.

End Str.

(* ===================================================================== *)
(** ** Exceptions *)
(* ===================================================================== *)

(** The exception classes the tools tell apart.  [TaigaException] stands
    for [pytaigaclient.exceptions.TaigaException] and its subclasses,
    [OtherException] for any other subclass of [Exception]. *)
Inductive exn_class : Type :=
| TaigaException
| ValueError
| PermissionError
| RuntimeError
| TypeError
| AttributeError
| OtherException.

(** An exception object: its class and [str(e)]. *)
Record exn : Type := Exn { exn_class_of : exn_class; exn_str : string }.

Definition is_taiga_exception (e : exn) : bool :=
  match exn_class_of e with TaigaException => true | _ => false end.

Definition is_value_error (e : exn) : bool :=
  match exn_class_of e with ValueError => true | _ => false end.

(** What a Python call does: it returns or it raises. *)
Inductive outcome (A : Type) : Type :=
| Returned (a : A)
| Raised (e : exn).
Arguments Returned {A} a.
Arguments Raised {A} e.

(** [v.get(k, default)] on an arbitrary value: only a dict has [get]. *)
Definition py_get (v : value) (k : string) (default : value) : outcome value :=
  match v with
  | VDict d => Returned (from_option id default (Dict.get k d))
  | _ => Raised (Exn AttributeError
                   ("'" +:+ type_name v +:+ "' object has no attribute 'get'"))
  end.

(** [str.lower] follows the Unicode tables of the interpreter, which are
    not written out here: it is an arbitrary function on strings that
    leaves the empty string empty. *)
Class PyUnicode : Type := {
  str_lower : string -> string;
  str_lower_empty : str_lower "" = ""
}.

(** [v.lower()]. *)
Definition py_lower `{PyUnicode} (v : value) : outcome string :=
  match v with
  | VStr s => Returned (str_lower s)
  | _ => Raised (Exn AttributeError
                   ("'" +:+ type_name v +:+ "' object has no attribute 'lower'"))
  end.

(** The items [for x in v] visits: the elements of a list, the keys of a
    dict, the characters of a string; the other values are not iterable. *)
Definition py_iter (v : value) : outcome (list value) :=
  match v with
  | VList l => Returned l
  | VDict d => Returned (List.map (fun kv => VStr (fst kv)) d)
  | VStr s => Returned (List.map VStr (Str.chars s))
  | _ => Raised (Exn TypeError
                   ("'" +:+ type_name v +:+ "' object is not iterable"))
  end.

(* ===================================================================== *)
(** ** The REST client and the world of a tool call *)
(* ===================================================================== *)

(** Modelled from the spec: [src/taiga_client.py] (the class
    [TaigaClientWrapper]) is not among the sources.  The specification
    describes the client handle as a connection object bound to one
    backend host and one set of credentials, carrying the boolean flag
    [is_authenticated]; an instance is an ordinary object, hence true in a
    boolean context. *)
Record TaigaClientWrapper : Type := Wrapper {
  wrapper_host : string;
  wrapper_user : string;
  is_authenticated : bool
}.

(** The resource collections of [taiga_client_wrapper.api] the update
    tools go through. *)
Inductive resource : Type :=
| projects | user_stories | tasks | issues | epics | milestones.

(** A call made through a client handle. *)
Inductive api_call : Type :=
| users_me
| resource_get (r : resource) (id : Z)
| resource_edit (r : resource) (id : Z) (version : value) (data : dict)
| memberships_list (query_params : dict).

(** The collaborators outside the repository, over a state [B] of their
    own (the backend and the random source):
    - [wrapper_login host username password]: [TaigaClientWrapper(host)]
      followed by [wrapper.login(username, password)]; it returns the
      truth value of the call's result with the wrapper as the call left
      it, or raises;
    - [api_request w c]: the call [c] through [w.api];
    - [uuid4]: [str(uuid.uuid4())]. *)
Class TaigaApi (B : Type) : Type := {
  wrapper_login : string -> string -> string -> B ->
                  outcome (bool * TaigaClientWrapper) * B;
  api_request : TaigaClientWrapper -> api_call -> B -> outcome value * B;
  uuid4 : B -> string * B
}.

(** The state a tool runs in: the environment, the module-level dict
    [active_sessions] of [common.py], and the calls issued so far, oldest
    first. *)
Record world (B : Type) : Type := World {
  environment : B;
  active_sessions : gmap string TaigaClientWrapper;
  api_log : list (TaigaClientWrapper * api_call)
}.
Arguments World {B} _ _ _.
Arguments environment {B} _.
Arguments active_sessions {B} _.
Arguments api_log {B} _.

(** A tool body: from a world to what it returned or raised, and the
    world it left. *)
Definition M (B A : Type) : Type := world B -> outcome A * world B.

Definition ret {B A} (a : A) : M B A := fun σ => (Returned a, σ).

Definition raise {B A} (e : exn) : M B A := fun σ => (Raised e, σ).

Definition bind {B A C} (m : M B A) (k : A -> M B C) : M B C :=
  fun σ =>
    match m σ with
    | (Returned a, σ') => k a σ'
    | (Raised e, σ') => (Raised e, σ')
    end.

(** [try: body  except Exception as e: handler(e)].  An exception raised
    by the handler itself is not caught. *)
Definition try_except {B A} (body : M B A) (handler : exn -> M B A) : M B A :=
  fun σ =>
    match body σ with
    | (Returned a, σ') => (Returned a, σ')
    | (Raised e, σ') => handler e σ'
    end.

(** A pure Python operation that may raise. *)
Definition lift {B A} (o : outcome A) : M B A := fun σ => (o, σ).

Notation "x <- m ;; k" := (bind m (fun x => k))
  (at level 100, m at next level, right associativity).

Definition result {B A} (r : outcome A * world B) : outcome A := fst r.
Definition final {B A} (r : outcome A * world B) : world B := snd r.

Section Tools.

Context {B : Type} `{TaigaApi B} {U : PyUnicode}.

(** One call through the handle [w]: the environment answers, and the
    call is entered in the log whether it returns or raises. *)
Definition call (w : TaigaClientWrapper) (c : api_call) : M B value :=
  fun σ =>
    let (r, b) := api_request w c (environment σ) in
    (r, World b (active_sessions σ) (api_log σ ++ [(w, c)])).

(* ------------------------------------------------------------------- *)
(** *** common.py *)

Definition invalid_session_message (session_id : string) : string :=
  "Invalid or expired session ID: '" +:+ session_id +:+ "'. Please login again.".

Definition get_authenticated_client (session_id : string) : M B TaigaClientWrapper :=
  fun σ =>
    match active_sessions σ !! session_id with
    | Some client =>
        if negb (is_authenticated client)
        then (Raised (Exn PermissionError (invalid_session_message session_id)), σ)
        else (Returned client, σ)
    | None => (Raised (Exn PermissionError (invalid_session_message session_id)), σ)
    end.

Definition handle_taiga_exception {A} (operation entity_type : string) (e : exn) : M B A :=
  raise e.

Definition handle_general_exception {A} (operation entity_type : string) (e : exn) : M B A :=
  raise (Exn RuntimeError
           ("Server error " +:+ operation +:+ " " +:+ entity_type +:+ ": " +:+ exn_str e)).

(** The two [except] clauses every tool ends with:
    [except TaigaException as e: handle_taiga_exception(...)] then
    [except Exception as e: handle_general_exception(...)]. *)
Definition standard_handlers {A} (operation entity_type : string) (e : exn) : M B A :=
  if is_taiga_exception e then handle_taiga_exception operation entity_type e
  else handle_general_exception operation entity_type e.

(* ------------------------------------------------------------------- *)
(** *** auth.py *)

Definition login (host username password : string) : M B value :=
  try_except
    (fun σ =>
       match wrapper_login host username password (environment σ) with
       | (Returned (login_successful, wrapper), b) =>
           if login_successful then
             let (new_session_id, b') := uuid4 b in
             (Returned (VDict [("session_id", VStr new_session_id)]),
              World b' (<[new_session_id := wrapper]> (active_sessions σ)) (api_log σ))
           else
             (Raised (Exn RuntimeError "Login failed for an unknown reason."),
              World b (active_sessions σ) (api_log σ))
       | (Raised e, b) => (Raised e, World b (active_sessions σ) (api_log σ))
       end)
    (fun e =>
       if is_value_error e || is_taiga_exception e then raise e
       else raise (Exn RuntimeError
                     ("An unexpected server error occurred during login: " +:+ exn_str e))).

Definition logout (session_id : string) : M B value :=
  fun σ =>
    let client_wrapper := active_sessions σ !! session_id in
    let σ' := World (environment σ) (delete session_id (active_sessions σ)) (api_log σ) in
    match client_wrapper with
    | Some _ =>
        (Returned (VDict [("status", VStr "logged_out");
                          ("session_id", VStr session_id)]), σ')
    | None =>
        (Returned (VDict [("status", VStr "session_not_found");
                          ("session_id", VStr session_id)]), σ')
    end.

(** [active_sessions.pop(session_id, None)] with the result dropped. *)
Definition pop_session (session_id : string) : M B unit :=
  fun σ => (Returned tt,
            World (environment σ) (delete session_id (active_sessions σ)) (api_log σ)).

Definition session_status (session_id : string) : M B value :=
  fun σ =>
    match active_sessions σ !! session_id with
    | Some client_wrapper =>
        if is_authenticated client_wrapper then
          try_except
            (me <- call client_wrapper users_me ;;
             username <- lift (py_get me "username" (VStr "Unknown")) ;;
             ret (VDict [("status", VStr "active");
                         ("session_id", VStr session_id);
                         ("username", username)]))
            (fun e =>
               if is_taiga_exception e then
                 _ <- pop_session session_id ;;
                 ret (VDict [("status", VStr "inactive");
                             ("reason", VStr "token_invalid");
                             ("session_id", VStr session_id)])
               else
                 ret (VDict [("status", VStr "error");
                             ("reason", VStr "check_failed");
                             ("session_id", VStr session_id)]))
            σ
        else
          (Returned (VDict [("status", VStr "inactive");
                            ("reason", VStr "not_authenticated");
                            ("session_id", VStr session_id)]), σ)
    | None =>
        (Returned (VDict [("status", VStr "inactive");
                          ("reason", VStr "not_found");
                          ("session_id", VStr session_id)]), σ)
    end.

(* ------------------------------------------------------------------- *)
(** *** The update tools

    [update_project], [update_user_story], [update_issue], [update_epic]
    and [update_milestone] have the same body up to the collection, the
    entity's name in the messages and the way the changes reach [edit];
    [update_task] first builds its change set from named parameters and
    then runs that body too.  [update_entity] is that common body, from
    the [try:] on. *)

Definition entity_name (r : resource) : string :=
  match r with
  | projects => "project"
  | user_stories => "user story"
  | tasks => "task"
  | issues => "issue"
  | epics => "epic"
  | milestones => "milestone"
  end.

(** The keyword under which [edit] receives the entity id. *)
Definition id_keyword (r : resource) : string :=
  match r with
  | projects => "project_id"
  | user_stories => "user_story_id"
  | tasks => "task_id"
  | issues => "issue_id"
  | epics => "epic_id"
  | milestones => "milestone_id"
  end.

(** [tasks.edit] and [issues.edit] receive the changes as [data=...];
    the other four receive them unpacked ([**kwargs]). *)
Definition edit_unpacks_changes (r : resource) : bool :=
  match r with
  | tasks | issues => false
  | _ => true
  end.

(** A key of [**kwargs] that repeats a keyword written out in the call
    makes the call itself raise [TypeError], before [edit] runs.  (The
    interpreter prefixes the message with the callee's name, which is
    not in the sources.) *)
Definition repeated_keyword (r : resource) (changes : dict) : option string :=
  if negb (edit_unpacks_changes r) then None
  else if Dict.has_key (id_keyword r) changes then Some (id_keyword r)
  else if Dict.has_key "version" changes then Some "version"
  else None.

Definition edit (r : resource) (w : TaigaClientWrapper) (id : Z)
    (version : value) (changes : dict) : M B value :=
  match repeated_keyword r changes with
  | Some k =>
      raise (Exn TypeError
               ("edit() got multiple values for keyword argument '" +:+ k +:+ "'"))
  | None => call w (resource_edit r id version changes)
  end.

Definition version_message (r : resource) (id : Z) : string :=
  "Could not determine version for " +:+ entity_name r +:+ " " +:+ Str.of_int id.

Definition update_entity (r : resource) (w : TaigaClientWrapper) (id : Z)
    (changes : dict) : M B value :=
  try_except
    (if Dict.is_empty changes then
       call w (resource_get r id)
     else
       current <- call w (resource_get r id) ;;
       version <- lift (py_get current "version" VNone) ;;
       if negb (truthy version) then
         raise (Exn ValueError (version_message r id))
       else
         edit r w id version changes)
    (standard_handlers "updating" (entity_name r)).

Definition update_project (session_id : string) (project_id : Z) (kwargs : dict) : M B value :=
  taiga_client_wrapper <- get_authenticated_client session_id ;;
  update_entity projects taiga_client_wrapper project_id kwargs.

Definition update_user_story (session_id : string) (user_story_id : Z) (kwargs : dict) : M B value :=
  taiga_client_wrapper <- get_authenticated_client session_id ;;
  update_entity user_stories taiga_client_wrapper user_story_id kwargs.

Definition update_issue (session_id : string) (issue_id : Z) (kwargs : dict) : M B value :=
  taiga_client_wrapper <- get_authenticated_client session_id ;;
  update_entity issues taiga_client_wrapper issue_id kwargs.

Definition update_epic (session_id : string) (epic_id : Z) (kwargs : dict) : M B value :=
  taiga_client_wrapper <- get_authenticated_client session_id ;;
  update_entity epics taiga_client_wrapper epic_id kwargs.

Definition update_milestone (session_id : string) (milestone_id : Z) (kwargs : dict) : M B value :=
  taiga_client_wrapper <- get_authenticated_client session_id ;;
  update_entity milestones taiga_client_wrapper milestone_id kwargs.

(** [if x is not None: update_data[k] = x]. *)
Definition set_unless_none (k : string) (x : value) (update_data : dict) : dict :=
  match x with
  | VNone => update_data
  | _ => Dict.set k x update_data
  end.

(** [if tags is not None: update_data["tags"] = [...]]; a [tags] that is
    not a string has no [split]. *)
Definition set_tags (tags : value) (update_data : dict) : outcome dict :=
  match tags with
  | VNone => Returned update_data
  | VStr s => Returned (Dict.set "tags" (VList (List.map VStr (Str.parse_tags s))) update_data)
  | _ => Raised (Exn AttributeError
                   ("'" +:+ type_name tags +:+ "' object has no attribute 'split'"))
  end.

(** The named parameters of [update_task], each [None] when left out. *)
Record task_fields : Type := TaskFields {
  subject : value;
  description : value;
  due_date : value;
  tags : value;
  assigned_to : value;
  milestone_id : value;
  status_id : value;
  user_story_id : value
}.

Definition no_fields : task_fields :=
  TaskFields VNone VNone VNone VNone VNone VNone VNone VNone.

(** The change set [update_task] builds before its [try:]. *)
Definition task_update_data (f : task_fields) (kwargs : dict) : outcome dict :=
  let update_data := [] in
  let update_data := set_unless_none "subject" (subject f) update_data in
  let update_data := set_unless_none "description" (description f) update_data in
  let update_data := set_unless_none "due_date" (due_date f) update_data in
  match set_tags (tags f) update_data with
  | Raised e => Raised e
  | Returned update_data =>
      let update_data := set_unless_none "assigned_to" (assigned_to f) update_data in
      let update_data := set_unless_none "milestone" (milestone_id f) update_data in
      let update_data := set_unless_none "status" (status_id f) update_data in
      let update_data := set_unless_none "user_story" (user_story_id f) update_data in
      Returned (Dict.update update_data kwargs)
  end.

Definition update_task (session_id : string) (task_id : Z) (f : task_fields)
    (kwargs : dict) : M B value :=
  taiga_client_wrapper <- get_authenticated_client session_id ;;
  update_data <- lift (task_update_data f kwargs) ;;
  update_entity tasks taiga_client_wrapper task_id update_data.

(* ------------------------------------------------------------------- *)
(** *** Assigning and unassigning *)

Definition assign_user_story_to_user (session_id : string) (user_story_id user_id : Z) : M B value :=
  update_user_story session_id user_story_id [("assigned_to", VInt user_id)].

Definition unassign_user_story_from_user (session_id : string) (user_story_id : Z) : M B value :=
  update_user_story session_id user_story_id [("assigned_to", VNone)].

Definition assign_issue_to_user (session_id : string) (issue_id user_id : Z) : M B value :=
  update_issue session_id issue_id [("assigned_to", VInt user_id)].

Definition unassign_issue_from_user (session_id : string) (issue_id : Z) : M B value :=
  update_issue session_id issue_id [("assigned_to", VNone)].

Definition assign_epic_to_user (session_id : string) (epic_id user_id : Z) : M B value :=
  update_epic session_id epic_id [("assigned_to", VInt user_id)].

Definition unassign_epic_from_user (session_id : string) (epic_id : Z) : M B value :=
  update_epic session_id epic_id [("assigned_to", VNone)].

Definition assign_task_to_user (session_id : string) (task_id user_id : Z) : M B value :=
  update_task session_id task_id
    (TaskFields VNone VNone VNone VNone (VInt user_id) VNone VNone VNone) [].

Definition unassign_task_from_user (session_id : string) (task_id : Z) : M B value :=
  update_task session_id task_id
    (TaskFields VNone VNone VNone VNone VNone VNone VNone VNone) [].

(* ------------------------------------------------------------------- *)
(** *** task.py: search_users and assign_task_by_username *)

Definition and_then {A C} (o : outcome A) (k : A -> outcome C) : outcome C :=
  match o with
  | Returned a => k a
  | Raised e => Raised e
  end.

(** One turn of the loop of [search_users]: the entry appended to
    [matching_users] for [member], if any. *)
Definition match_member (query_lower : string) (member : value) : outcome (option value) :=
  and_then (py_get member "user" (VDict [])) (fun user =>
  and_then (and_then (py_get user "full_name" (VStr "")) py_lower) (fun full_name =>
  and_then (and_then (py_get user "username" (VStr "")) py_lower) (fun username =>
  and_then (and_then (py_get user "email" (VStr "")) py_lower) (fun email =>
  if Str.contains query_lower full_name
     || Str.contains query_lower username
     || Str.contains query_lower email
  then
    and_then (py_get user "id" VNone) (fun u_id =>
    and_then (py_get user "username" VNone) (fun u_username =>
    and_then (py_get user "full_name" VNone) (fun u_full_name =>
    and_then (py_get user "email" VNone) (fun u_email =>
    and_then (py_get member "role_name" VNone) (fun u_role =>
    and_then (py_get user "is_active" (VBool false)) (fun u_active =>
    Returned (Some (VDict [("id", u_id);
                           ("username", u_username);
                           ("full_name", u_full_name);
                           ("email", u_email);
                           ("role", u_role);
                           ("is_active", u_active)]))))))))
  else Returned None)))).

(** The whole loop: the entries in the order of the members, or the
    exception of the first member that raises. *)
Fixpoint matching_users (query_lower : string) (members : list value) : outcome (list value) :=
  match members with
  | [] => Returned []
  | member :: rest =>
      and_then (match_member query_lower member) (fun entry =>
      and_then (matching_users query_lower rest) (fun entries =>
      Returned (match entry with
                | Some u => u :: entries
                | None => entries
                end)))
  end.

Definition project_query (project_id : Z) : dict := [("project", VInt project_id)].

Definition search_users (session_id : string) (project_id : Z) (query : string) : M B (list value) :=
  taiga_client_wrapper <- get_authenticated_client session_id ;;
  try_except
    (members <- call taiga_client_wrapper (memberships_list (project_query project_id)) ;;
     let query_lower := str_lower query in
     items <- lift (py_iter members) ;;
     lift (matching_users query_lower items))
    (standard_handlers "searching" "users").

(** [v[k]] for a string key. *)
Definition py_getitem (v : value) (k : string) : outcome value :=
  match v with
  | VDict d =>
      match Dict.get k d with
      | Some x => Returned x
      | None => Raised (Exn OtherException ("'" +:+ k +:+ "'"))
      end
  | VStr _ => Raised (Exn TypeError "string indices must be integers")
  | VList _ => Raised (Exn TypeError "list indices must be integers or slices, not str")
  | _ => Raised (Exn TypeError ("'" +:+ type_name v +:+ "' object is not subscriptable"))
  end.

(** [v[k] = x] for a string key. *)
Definition py_setitem (v : value) (k : string) (x : value) : outcome value :=
  match v with
  | VDict d => Returned (VDict (Dict.set k x d))
  | VList _ => Raised (Exn TypeError "list indices must be integers or slices, not str")
  | _ => Raised (Exn TypeError
                   ("'" +:+ type_name v +:+ "' object does not support item assignment"))
  end.

Definition no_user_message (username : string) (project_id : Z) : string :=
  "No user found matching '" +:+ username +:+ "' in project " +:+ Str.of_int project_id.

Definition multiple_matches (username : string) (users : list value) : value :=
  VDict [("status", VStr "multiple_matches");
         ("message", VStr ("Multiple users found matching '" +:+ username
                           +:+ "'. Please specify:"));
         ("users", VList users);
         ("suggestion", VStr "Use assign_task_to_user with specific user ID")].

(** The second handler of [assign_task_by_username] calls
    [handle_general_exception] with three arguments where the function
    takes four, so the call itself raises. *)
Definition handler_arity_error : exn :=
  Exn TypeError "handle_general_exception() missing 1 required positional argument: 'e'".

Definition assign_task_by_username (session_id : string) (task_id project_id : Z)
    (username : string) : M B value :=
  try_except
    (users <- search_users session_id project_id username ;;
     match users with
     | [] => raise (Exn ValueError (no_user_message username project_id))
     | _ :: _ :: _ => ret (multiple_matches username users)
     | [user] =>
         user_id <- lift (py_getitem user "id") ;;
         result <- update_task session_id task_id
                     (TaskFields VNone VNone VNone VNone user_id VNone VNone VNone) [] ;;
         lift (py_setitem result "assigned_user" user)
     end)
    (fun e => if is_value_error e then raise e else raise handler_arity_error).

(* ------------------------------------------------------------------- *)
(** *** Vocabulary for the properties *)

(** The six update tools behind one entry point, each with the arguments
    that make up its change set. *)
Inductive update_request : Type :=
| UpdateProject (kwargs : dict)
| UpdateUserStory (kwargs : dict)
| UpdateTask (f : task_fields) (kwargs : dict)
| UpdateIssue (kwargs : dict)
| UpdateEpic (kwargs : dict)
| UpdateMilestone (kwargs : dict).

Definition resource_of (u : update_request) : resource :=
  match u with
  | UpdateProject _ => projects
  | UpdateUserStory _ => user_stories
  | UpdateTask _ _ => tasks
  | UpdateIssue _ => issues
  | UpdateEpic _ => epics
  | UpdateMilestone _ => milestones
  end.

(** The change set of a request: [kwargs] itself, or for a task the
    [update_data] built from the named parameters and [kwargs]. *)
Definition change_set (u : update_request) : outcome dict :=
  match u with
  | UpdateTask f kwargs => task_update_data f kwargs
  | UpdateProject kwargs | UpdateUserStory kwargs | UpdateIssue kwargs
  | UpdateEpic kwargs | UpdateMilestone kwargs => Returned kwargs
  end.

Definition run_update (u : update_request) (session_id : string) (id : Z) : M B value :=
  match u with
  | UpdateProject kwargs => update_project session_id id kwargs
  | UpdateUserStory kwargs => update_user_story session_id id kwargs
  | UpdateTask f kwargs => update_task session_id id f kwargs
  | UpdateIssue kwargs => update_issue session_id id kwargs
  | UpdateEpic kwargs => update_epic session_id id kwargs
  | UpdateMilestone kwargs => update_milestone session_id id kwargs
  end.

(** The four unassign tools. *)
Definition run_unassign (r : resource) (session_id : string) (id : Z) : option (M B value) :=
  match r with
  | user_stories => Some (unassign_user_story_from_user session_id id)
  | tasks => Some (unassign_task_from_user session_id id)
  | issues => Some (unassign_issue_from_user session_id id)
  | epics => Some (unassign_epic_from_user session_id id)
  | projects | milestones => None
  end.

(** The exception a tool's two standard handlers let out for [e]. *)
Definition surfaced (operation entity_type : string) (e : exn) : exn :=
  if is_taiga_exception e then e
  else Exn RuntimeError
         ("Server error " +:+ operation +:+ " " +:+ entity_type +:+ ": " +:+ exn_str e).

Definition surface {A} (operation entity_type : string) (o : outcome A) : outcome A :=
  match o with
  | Returned a => Returned a
  | Raised e => Raised (surfaced operation entity_type e)
  end.

(** The version an update reads off the answer of its fetch: present only
    when the fetch returned a dict whose ["version"] is true in a boolean
    context. *)
Definition fetched_version (fetch : outcome value) : option value :=
  match fetch with
  | Returned (VDict d) =>
      match Dict.get "version" d with
      | Some v => if truthy v then Some v else None
      | None => None
      end
  | _ => None
  end.

(** The error of the version guard as a caller sees it: the [ValueError]
    of the guard after the general handler has wrapped it. *)
Definition version_unavailable (r : resource) (id : Z) : exn :=
  Exn RuntimeError
    ("Server error updating " +:+ entity_name r +:+ ": " +:+ version_message r id).

Definition is_edit (c : TaigaClientWrapper * api_call) : bool :=
  match snd c with
  | resource_edit _ _ _ _ => true
  | _ => false
  end.

(** The dict [logout] returns, by whether an entry was removed. *)
Definition logout_result (session_id : string) (removed : bool) : value :=
  VDict [("status", VStr (if removed then "logged_out" else "session_not_found"));
         ("session_id", VStr session_id)].

Definition status_result (status reason session_id : string) : value :=
  VDict [("status", VStr status); ("reason", VStr reason); ("session_id", VStr session_id)].

(** A member counts as a match when its loop turn appends an entry. *)
Definition member_matches (query_lower : string) (member : value) : bool :=
  match match_member query_lower member with
  | Returned (Some _) => true
  | _ => false
  end.


(** The login exchange failed: it raised, or returned a false value. *)
Definition login_exchange_failed (o : outcome (bool * TaigaClientWrapper)) : bool :=
  match o with
  | Returned (true, _) => false
  | _ => true
  end.

End Tools.

(* ===================================================================== *)
(** ** Further tools: reading, project members, adding tags *)
(* ===================================================================== *)

Module Py.

(** The double quote, for the interpreter's messages that contain one. *)
Definition dquote : string := String (ascii_of_nat 34) EmptyString.

(** [sep.join(l)] for a list of strings. *)
Fixpoint join (sep : string) (l : list string) : string :=
  match l with
  | [] => EmptyString
  | [x] => x
  | x :: l' => x +:+ sep +:+ join sep l'
  end.

(** [a + b] where [b] is a list: only a list can be extended by a list. *)
Definition add_list (a : value) (b : list value) : outcome (list value) :=
  match a with
  | VList l => Returned (l ++ b)
  | VStr _ =>
      Raised (Exn TypeError
                ("can only concatenate str (not " +:+ dquote +:+ "list" +:+ dquote
                 +:+ ") to str"))
  | _ =>
      Raised (Exn TypeError
                ("unsupported operand type(s) for +: '" +:+ type_name a
                 +:+ "' and 'list'"))
  end.

(** Lists and dicts cannot be members of a set. *)
Definition hashable (v : value) : bool :=
  match v with
  | VList _ | VDict _ => false
  | _ => true
  end.

(** The integer a bool or an int compares as. *)
Definition as_int (v : value) : option Z :=
  match v with
  | VBool b => Some (if b then 1 else 0)
  | VInt z => Some z
  | _ => None
  end.

(** [a == b] on hashable values: [True == 1] and [False == 0] hold, a
    string equals only the same string, [None] only [None]. *)
Definition eqb (a b : value) : bool :=
  match a, b with
  | VNone, VNone => true
  | VStr s, VStr t => String.eqb s t
  | _, _ =>
      match as_int a, as_int b with
      | Some x, Some y => x =? y
      | _, _ => false
      end
  end.

(** The members of [set(l)] in the order of their first insertion: an
    element equal to one already [seen] is dropped. *)
Fixpoint distinct (seen l : list value) : list value :=
  match l with
  | [] => []
  | x :: l' =>
      if existsb (eqb x) seen then distinct seen l'
      else x :: distinct (x :: seen) l'
  end.

(** [list(set(l))]: the first unhashable element makes [set] raise; the
    members come out in an order of the interpreter's choosing,
    [set_order]. *)
Definition list_of_set (set_order : list value -> list value) (l : list value)
    : outcome (list value) :=
  match List.find (fun v => negb (hashable v)) l with
  | Some v => Raised (Exn TypeError ("unhashable type: '" +:+ type_name v +:+ "'"))
  | None => Returned (set_order (distinct [] l))
  end.

(** [sep.join(l)] for a list of values: the first member that is not a
    string makes it raise, naming its position [i]. *)
Fixpoint join_values (sep : string) (i : nat) (l : list value) : outcome (list string) :=
  match l with
  | [] => Returned []
  | VStr s :: l' =>
      match join_values sep (S i) l' with
      | Returned strs => Returned (s :: strs)
      | Raised e => Raised e
      end
  | v :: _ =>
      Raised (Exn TypeError
                ("sequence item " +:+ pretty i +:+ ": expected str instance, "
                 +:+ type_name v +:+ " found"))
  end.

Definition str_join (sep : string) (l : list value) : outcome string :=
  match join_values sep 0 l with
  | Returned strs => Returned (join sep strs)
  | Raised e => Raised e
  end.

End Py.

Section MoreTools.

Context {B : Type} `{TaigaApi B} {U : PyUnicode}.

(** The order in which the interpreter iterates over a set. *)
Variable set_order : list value -> list value.

(* ------------------------------------------------------------------- *)
(** *** The get tools

    [get_project], [get_user_story], [get_task], [get_issue], [get_epic]
    and [get_milestone] differ in the collection and the entity's name
    only; [get_entity] is their common [try:] block. *)

Definition get_entity (r : resource) (w : TaigaClientWrapper) (id : Z) : M B value :=
  try_except
    (call w (resource_get r id))
    (standard_handlers "getting" (entity_name r)).

Definition get_project (session_id : string) (project_id : Z) : M B value :=
  taiga_client_wrapper <- get_authenticated_client session_id ;;
  get_entity projects taiga_client_wrapper project_id.

Definition get_user_story (session_id : string) (user_story_id : Z) : M B value :=
  taiga_client_wrapper <- get_authenticated_client session_id ;;
  get_entity user_stories taiga_client_wrapper user_story_id.

Definition get_task (session_id : string) (task_id : Z) : M B value :=
  taiga_client_wrapper <- get_authenticated_client session_id ;;
  get_entity tasks taiga_client_wrapper task_id.

Definition get_issue (session_id : string) (issue_id : Z) : M B value :=
  taiga_client_wrapper <- get_authenticated_client session_id ;;
  get_entity issues taiga_client_wrapper issue_id.

Definition get_epic (session_id : string) (epic_id : Z) : M B value :=
  taiga_client_wrapper <- get_authenticated_client session_id ;;
  get_entity epics taiga_client_wrapper epic_id.

Definition get_milestone (session_id : string) (milestone_id : Z) : M B value :=
  taiga_client_wrapper <- get_authenticated_client session_id ;;
  get_entity milestones taiga_client_wrapper milestone_id.

(** The six get tools behind one entry point. *)
Definition run_get (r : resource) (session_id : string) (id : Z) : M B value :=
  match r with
  | projects => get_project session_id id
  | user_stories => get_user_story session_id id
  | tasks => get_task session_id id
  | issues => get_issue session_id id
  | epics => get_epic session_id id
  | milestones => get_milestone session_id id
  end.

(** The four assign tools behind one entry point. *)
Definition run_assign (r : resource) (session_id : string) (id user_id : Z)
    : option (M B value) :=
  match r with
  | user_stories => Some (assign_user_story_to_user session_id id user_id)
  | tasks => Some (assign_task_to_user session_id id user_id)
  | issues => Some (assign_issue_to_user session_id id user_id)
  | epics => Some (assign_epic_to_user session_id id user_id)
  | projects | milestones => None
  end.

(* ------------------------------------------------------------------- *)
(** *** user.py: get_project_members *)

(** Its two handlers name the entity differently; only the general one
    puts the name into a message. *)
Definition get_project_members (session_id : string) (project_id : Z) : M B value :=
  taiga_client_wrapper <- get_authenticated_client session_id ;;
  try_except
    (call taiga_client_wrapper (memberships_list (project_query project_id)))
    (fun e =>
       if is_taiga_exception e then handle_taiga_exception "getting" "members" e
       else handle_general_exception "getting" "project members" e).

(* ------------------------------------------------------------------- *)
(** *** task.py: add_task_tags *)

Definition tags_only (tags : value) : task_fields :=
  TaskFields VNone VNone VNone tags VNone VNone VNone VNone.

Definition add_task_tags (session_id : string) (task_id : Z) (new_tags : string)
    : M B value :=
  taiga_client_wrapper <- get_authenticated_client session_id ;;
  try_except
    (current_task <- call taiga_client_wrapper (resource_get tasks task_id) ;;
     current_tags <- lift (py_get current_task "tags" (VList [])) ;;
     let new_tag_list := List.map VStr (Str.parse_tags new_tags) in
     combined <- lift (Py.add_list current_tags new_tag_list) ;;
     all_tags <- lift (Py.list_of_set set_order combined) ;;
     joined <- lift (Py.str_join "," all_tags) ;;
     update_task session_id task_id (tags_only (VStr joined)) [])
    (standard_handlers "adding" "task tags").

(* ------------------------------------------------------------------- *)
(** *** Vocabulary for the further properties *)

(** The classes of the exceptions an update tool lets out. *)
Definition update_error_class (c : exn_class) : bool :=
  match c with
  | PermissionError | TaigaException | RuntimeError | AttributeError => true
  | _ => false
  end.

(** [x] unless it is [None]. *)
Definition unless_none (x : value) : option value :=
  match x with
  | VNone => None
  | _ => Some x
  end.

(** What each key of [update_task]'s change set holds when [kwargs] does
    not give the key: the named parameter behind the key, unless it is
    [None]. *)
Definition field_value (f : task_fields) (k : string) : option value :=
  if String.eqb k "subject" then unless_none (subject f)
  else if String.eqb k "description" then unless_none (description f)
  else if String.eqb k "due_date" then unless_none (due_date f)
  else if String.eqb k "tags" then
    match tags f with
    | VStr s => Some (VList (List.map VStr (Str.parse_tags s)))
    | _ => None
    end
  else if String.eqb k "assigned_to" then unless_none (assigned_to f)
  else if String.eqb k "milestone" then unless_none (milestone_id f)
  else if String.eqb k "status" then unless_none (status_id f)
  else if String.eqb k "user_story" then unless_none (user_story_id f)
  else None.

(** The keys of a dict are pairwise different. *)
Definition unique_keys (d : dict) : Prop := List.NoDup (List.map fst d).

Definition comma_free (t : string) : bool :=
  forallb (fun c => negb (Ascii.eqb c ",")) (list_ascii_of_string t).

(** A tag as [parse_tags] produces them: not empty, without a comma,
    without whitespace at either end. *)
Definition clean_tag (t : string) : Prop :=
  t <> "" /\ comma_free t = true /\ Str.strip t = t.

(** A group of bytes that continues with continuation bytes only, and
    one that also begins a character. *)
Definition continues (t : string) : Prop :=
  forallb Str.is_continuation (list_ascii_of_string t) = true.

Definition is_unit (g : string) : Prop :=
  match g with
  | EmptyString => False
  | String _ t => continues t
  end.

Definition is_lead (g : string) : Prop :=
  match g with
  | EmptyString => False
  | String c t => Str.is_continuation c = false /\ continues t
  end.

(** The shape of the lists [Str.chars] produces. *)
Definition well_grouped (l : list string) : Prop :=
  match l with
  | [] => True
  | g :: rest => is_unit g /\ Forall is_lead rest
  end.

(** A list of characters that does not begin with whitespace. *)
Definition starts_clean (l : list string) : Prop :=
  match l with
  | [] => True
  | ch :: _ => Str.is_space ch = false
  end.

(** The named parameters of [update_task] with only [assigned_to] given. *)
Definition assigned_to_only (x : value) : task_fields :=
  TaskFields VNone VNone VNone VNone x VNone VNone VNone.

Definition is_str (v : value) : bool :=
  match v with
  | VStr _ => true
  | _ => false
  end.

(** The string [add_task_tags] hands to [update_task], from the answer of
    its own fetch: the comma-joined members of the set of the task's tags
    and the new tags. *)
Definition joined_tags (new_tags : string) (fetch : outcome value) : outcome string :=
  and_then fetch (fun current_task =>
  and_then (py_get current_task "tags" (VList [])) (fun current_tags =>
  and_then (Py.add_list current_tags (List.map VStr (Str.parse_tags new_tags)))
    (fun combined =>
  and_then (Py.list_of_set set_order combined) (Py.str_join ",")))).

End MoreTools.

(** A second sample backend: one task, kept as the backend's state; [get]
    returns it, [edit] merges the changes into it and counts the version
    up.  The set order reverses the insertion order. *)
Module TagSample.

Definition stored_version (task : value) : Z :=
  match py_get task "version" VNone with
  | Returned (VInt v) => v
  | _ => 0
  end.

#[global] Instance api : TaigaApi value := {
  wrapper_login host username password task :=
    (Returned (true, Wrapper host username true), task);
  api_request w c task :=
    match c with
    | resource_get _ _ => (Returned task, task)
    | resource_edit _ _ _ data =>
        match task with
        | VDict d =>
            let task' :=
              VDict (Dict.set "version" (VInt (stored_version task + 1))
                       (Dict.update d data)) in
            (Returned task', task')
        | _ => (Raised (Exn TaigaException "Not found"), task)
        end
    | _ => (Raised (Exn TaigaException "Not supported"), task)
    end;
  uuid4 task := ("00000000-0000-4000-8000-000000000000", task)
}.

Definition carol : TaigaClientWrapper := Wrapper "https://x.example" "carol" true.

Definition sid : string := "9b2e4d6f-1a3c-4b5d-8e7f-a0b1c2d3e4f5".

Definition task7 : value :=
  VDict [("id", VInt 7); ("version", VInt 3);
         ("tags", VList [VStr "backend"; VStr "urgent"])].

(** Tags the way some backends return them: pairs of name and colour. *)
Definition task8 : value :=
  VDict [("id", VInt 8); ("version", VInt 1);
         ("tags", VList [VList [VStr "backend"; VNone]])].

Definition world_of (task : value) : world value := World task {[ sid := carol ]} [].

Definition newest_first (l : list value) : list value := rev l.

End TagSample.

(* ===================================================================== *)
(** ** A sample environment *)
(* ===================================================================== *)

(** A small backend to run the tools on: it accepts the password
    ["goodpw"], knows entity 42 at version 7 and entity 43 without a
    version, answers [users.me()] as its state says, and has three project
    members.  Session ids are handed out from a list. *)
Module Sample.

Record backend : Type := Backend {
  me_answer : outcome value;
  fresh_ids : list string
}.

Definition entity42 : value :=
  VDict [("id", VInt 42); ("version", VInt 7); ("subject", VStr "Old title")].

Definition entity43 : value :=
  VDict [("id", VInt 43); ("subject", VStr "Imported")].

Definition member (uid : Z) (uname full email role : string) : value :=
  VDict [("user", VDict [("id", VInt uid); ("username", VStr uname);
                         ("full_name", VStr full); ("email", VStr email);
                         ("is_active", VBool true)]);
         ("role_name", VStr role)].

Definition members : value :=
  VList [member 1 "alice" "Alice Liddell" "alice@x.example" "Product Owner";
         member 2 "alina" "Alina Berg" "alina@x.example" "Back";
         member 3 "bob" "Bob Stone" "bob@x.example" "Front"].

Definition edited (id : Z) (version : value) (data : dict) : value :=
  VDict (Dict.update
           [("id", VInt id);
            ("version", match version with VInt v => VInt (v + 1) | _ => version end)]
           data).

#[global] Instance api : TaigaApi backend := {
  wrapper_login host username password b :=
    if String.eqb password "goodpw"
    then (Returned (true, Wrapper host username true), b)
    else (Raised (Exn TaigaException "Invalid credentials"), b);
  api_request w c b :=
    match c with
    | users_me => (me_answer b, b)
    | resource_get _ 42 => (Returned entity42, b)
    | resource_get _ 43 => (Returned entity43, b)
    | resource_get _ _ => (Raised (Exn TaigaException "Not found"), b)
    | resource_edit _ id version data => (Returned (edited id version data), b)
    | memberships_list _ => (Returned members, b)
    end;
  uuid4 b :=
    match fresh_ids b with
    | sid :: rest => (sid, Backend (me_answer b) rest)
    | [] => ("00000000-0000-4000-8000-000000000000", b)
    end
}.

(** The sample interpreter: its [str.lower] folds the ASCII letters. *)
#[global] Instance unicode : PyUnicode := {|
  str_lower := Str.lower_ascii;
  str_lower_empty := eq_refl
|}.

Definition alice : TaigaClientWrapper := Wrapper "https://x.example" "alice" true.

Definition sid : string := "3f2b8c1e-5d4a-4e6f-9a7b-0c1d2e3f4a5b".

Definition backend0 : backend :=
  Backend (Returned (VDict [("username", VStr "alice")]))
          ["7c9e6679-7425-40de-944b-e07fc1f90ae7"].

(** A world in which alice is logged in under [sid]. *)
Definition world0 : world backend := World backend0 {[ sid := alice ]} [].

Definition with_me (r : outcome value) : world backend :=
  World (Backend r []) {[ sid := alice ]} [].

(** The change set of the update scenarios. *)
Definition new_title : dict := [("subject", VStr "New title")].

End Sample.

(** The members the first sample backend lists, and the entry
    [search_users] builds for bob. *)
Definition sample_items : list value :=
  match Sample.members with VList l => l | _ => [] end.

Definition bob_entry : value :=
  VDict [("id", VInt 3); ("username", VStr "bob"); ("full_name", VStr "Bob Stone");
         ("email", VStr "bob@x.example"); ("role", VStr "Front");
         ("is_active", VBool true)].

(** A second backend, for the failure paths: its login exchange answers
    what its state holds, and so does its membership listing. *)
Module Faulty.

Record server : Type := Server {
  login_answer : outcome (bool * TaigaClientWrapper);
  listing : value
}.

#[global] Instance api : TaigaApi server := {
  wrapper_login host username password b := (login_answer b, b);
  api_request w c b :=
    match c with
    | memberships_list _ => (Returned (listing b), b)
    | _ => (Raised (Exn TaigaException "Not found"), b)
    end;
  uuid4 b := ("00000000-0000-4000-8000-000000000000", b)
}.

(** A member whose user has a null email. *)
Definition carol_member : value :=
  VDict [("user", VDict [("id", VInt 4); ("username", VStr "carol");
                         ("full_name", VStr "Carol Reed"); ("email", VNone);
                         ("is_active", VBool true)]);
         ("role_name", VStr "Design")].

Definition members : value :=
  VList [Sample.member 1 "alice" "Alice Liddell" "alice@x.example" "Product Owner";
         Sample.member 2 "alina" "Alina Berg" "alina@x.example" "Back";
         carol_member].

(** The server cannot be reached: the exchange raises a connection error. *)
Definition unreachable : world server :=
  World (Server (Raised (Exn OtherException "Connection refused")) (VList [])) ∅ [].


End Faulty.

(* ===================================================================== *)
(** ** Properties *)
(* ===================================================================== *)

Example truthy_version_examples :
  truthy (VInt 7) = true /\ truthy (VInt 0) = false /\ truthy VNone = false.
Proof. repeat split. Qed.

Example parse_tags_example :
  Str.parse_tags " frontend, urgent ,,bug " = ["frontend"; "urgent"; "bug"].
Proof. reflexivity. Qed.

(** [strip] removes the whitespace of Unicode, here U+00A0 and U+2009,
    and leaves a byte [0xA0] inside another character alone. *)
Example strip_example :
  Str.strip "  needs review  " = "needs review" /\
  Str.strip (Str.of_bytes [194; 160; 120; 226; 128; 137]%nat) = "x" /\
  Str.strip (Str.of_bytes [195; 160; 32]%nat) = Str.of_bytes [195; 160]%nat /\
  Str.chars (Str.of_bytes [195; 160; 120]%nat) = [Str.of_bytes [195; 160]%nat; "x"].
Proof. repeat split. Qed.

Example split_example : Str.split "," "a,,b," = ["a"; ""; "b"; ""].
Proof. reflexivity. Qed.

Example contains_example :
  Str.contains "ali" (Str.lower_ascii "Alice Liddell") = true /\
  Str.contains "bob" (Str.lower_ascii "Alice Liddell") = false /\
  Str.contains "" "" = true.
Proof. repeat split. Qed.

Example of_int_example : Str.of_int 42 = "42" /\ Str.of_int (-3) = "-3".
Proof. split; reflexivity. Qed.

Lemma dict_set_not_empty k v (d : dict) : Dict.is_empty (Dict.set k v d) = false.
Proof.
  destruct d as [|[k' v'] d']; simpl; [reflexivity|].
  destruct (String.eqb k k'); reflexivity.
Qed.

Lemma dict_update_nil (d : dict) : Dict.update d [] = d.
Proof. reflexivity. Qed.

Section Properties.

Context {B : Type} `{TaigaApi B} {U : PyUnicode}.

Implicit Types (σ : world B) (w : TaigaClientWrapper) (r : resource) (e : exn).

(** *** The monad and the handlers *)

Lemma standard_handlers_run {A} operation entity_type e σ :
  standard_handlers (A := A) operation entity_type e σ
  = (Raised (surfaced operation entity_type e), σ).
Proof.
  unfold standard_handlers, surfaced, handle_taiga_exception,
    handle_general_exception, raise.
  destruct (is_taiga_exception e); reflexivity.
Qed.

Lemma call_run w c σ :
  call w c σ =
  (fst (api_request w c (environment σ)),
   World (snd (api_request w c (environment σ))) (active_sessions σ)
         (api_log σ ++ [(w, c)])).
Proof. unfold call. destruct (api_request w c (environment σ)); reflexivity. Qed.

(** *** The gate *)

Lemma get_authenticated_client_ok σ s w :
  active_sessions σ !! s = Some w ->
  is_authenticated w = true ->
  get_authenticated_client s σ = (Returned w, σ).
Proof.
  intros Hs Ha. unfold get_authenticated_client. rewrite Hs, Ha. reflexivity.
Qed.

Lemma get_authenticated_client_final σ s :
  final (get_authenticated_client s σ) = σ.
Proof.
  unfold get_authenticated_client.
  destruct (active_sessions σ !! s) as [c|]; [destruct (is_authenticated c)|]; reflexivity.
Qed.

(** C4.  [get_authenticated_client] returns a client exactly when the
    session id is a key of [active_sessions] and the stored client's
    [is_authenticated] flag is true, and then it returns that stored
    client; in every other case (no entry, or a flag that is false) it
    raises [PermissionError] with the invalid-session message.  It never
    changes the world. *)
Theorem get_authenticated_client_spec σ s :
  (forall c, result (get_authenticated_client s σ) = Returned c <->
             active_sessions σ !! s = Some c /\ is_authenticated c = true) /\
  (result (get_authenticated_client s σ)
     = Raised (Exn PermissionError (invalid_session_message s)) <->
   ~ exists c, active_sessions σ !! s = Some c /\ is_authenticated c = true) /\
  final (get_authenticated_client s σ) = σ.
Proof.
  unfold get_authenticated_client, result, final.
  destruct (active_sessions σ !! s) as [c0|] eqn:Hs;
    [destruct (is_authenticated c0) eqn:Ha|]; simpl.
  - split; [|split; [|reflexivity]].
    + intros c. split.
      * intros [= <-]. auto.
      * intros [[= <-] _]. reflexivity.
    + split; [discriminate|].
      intros Hn. exfalso. apply Hn. eauto.
  - split; [|split; [|reflexivity]].
    + intros c. split; [discriminate|].
      intros [[= <-] Hc]. congruence.
    + split; [|reflexivity].
      intros _ (c & [= <-] & Hc). congruence.
  - split; [|split; [|reflexivity]].
    + intros c. split; [discriminate|]. intros [[=] _].
    + split; [|reflexivity].
      intros _ (c & [=] & _).
Qed.

(** *** Logging out *)

Lemma logout_run σ s :
  logout s σ =
  (Returned (logout_result s (bool_decide (is_Some (active_sessions σ !! s)))),
   World (environment σ) (delete s (active_sessions σ)) (api_log σ)).
Proof.
  unfold logout, logout_result.
  destruct (active_sessions σ !! s) as [c|] eqn:Hs; reflexivity.
Qed.

(** C8.  [logout] never raises.  It removes the entry of the session id
    (every other entry stays) and reports [logged_out] exactly when there
    was an entry to remove, [session_not_found] otherwise, also for an id
    that never existed.  A second [logout] of the same id right after
    always reports [session_not_found] and leaves the world as the first
    call left it. *)
Theorem logout_twice σ s :
  let first := logout s σ in
  let second := logout s (final first) in
  result first
    = Returned (logout_result s (bool_decide (is_Some (active_sessions σ !! s)))) /\
  active_sessions (final first) = delete s (active_sessions σ) /\
  active_sessions (final first) !! s = None /\
  (forall s', s' <> s -> active_sessions (final first) !! s' = active_sessions σ !! s') /\
  result second = Returned (logout_result s false) /\
  final second = final first.
Proof.
  cbv zeta. rewrite !logout_run. unfold result, final. simpl.
  rewrite lookup_delete_eq.
  repeat split.
  - intros s' Hne. apply lookup_delete_ne. congruence.
  - f_equal. apply delete_id. apply lookup_delete_eq.
Qed.

Lemma logout_present σ s w :
  active_sessions σ !! s = Some w ->
  result (logout s σ) = Returned (logout_result s true).
Proof. intros Hs. rewrite logout_run. unfold result. simpl. rewrite Hs. reflexivity. Qed.

Lemma logout_absent σ s :
  active_sessions σ !! s = None ->
  logout s σ = (Returned (logout_result s false), σ).
Proof.
  intros Hs. rewrite logout_run, Hs. simpl.
  rewrite delete_id by exact Hs. destruct σ; reflexivity.
Qed.

(** *** Checking a session *)

Lemma session_status_check_failed σ s w e :
  active_sessions σ !! s = Some w ->
  is_authenticated w = true ->
  fst (api_request w users_me (environment σ)) = Raised e ->
  session_status s σ =
  let b := snd (api_request w users_me (environment σ)) in
  if is_taiga_exception e then
    (Returned (status_result "inactive" "token_invalid" s),
     World b (delete s (active_sessions σ)) (api_log σ ++ [(w, users_me)]))
  else
    (Returned (status_result "error" "check_failed" s),
     World b (active_sessions σ) (api_log σ ++ [(w, users_me)])).
Proof.
  intros Hs Ha He. unfold session_status. rewrite Hs, Ha.
  unfold try_except, bind. rewrite call_run, He. simpl.
  destruct (is_taiga_exception e); reflexivity.
Qed.

(** The identity check goes out exactly for a stored, authenticated
    client; otherwise [session_status] answers from the store alone. *)
Lemma session_status_no_check σ s :
  (~ exists w, active_sessions σ !! s = Some w /\ is_authenticated w = true) ->
  final (session_status s σ) = σ.
Proof.
  intros Hn. unfold session_status.
  destruct (active_sessions σ !! s) as [w|] eqn:Hs; [|reflexivity].
  destruct (is_authenticated w) eqn:Ha; [|reflexivity].
  exfalso. apply Hn. eauto.
Qed.

(** C5.  Let the session id have a stored, authenticated client, so that
    [session_status] issues the identity check [users.me()], and let
    that check raise [e].  If [e] is a [TaigaException], the tool reports
    [inactive] / [token_invalid], the entry is removed from
    [active_sessions] and a lookup right after raises [PermissionError].
    If [e] is of any other class, the tool reports [error] /
    [check_failed], [active_sessions] is unchanged and a lookup right
    after still returns the client.  In both cases the check is the only
    call issued. *)
Theorem session_status_eviction σ s w e :
  active_sessions σ !! s = Some w ->
  is_authenticated w = true ->
  fst (api_request w users_me (environment σ)) = Raised e ->
  let run := session_status s σ in
  api_log (final run) = api_log σ ++ [(w, users_me)] /\
  (is_taiga_exception e = true ->
     result run = Returned (status_result "inactive" "token_invalid" s) /\
     active_sessions (final run) = delete s (active_sessions σ) /\
     result (get_authenticated_client s (final run))
       = Raised (Exn PermissionError (invalid_session_message s))) /\
  (is_taiga_exception e = false ->
     result run = Returned (status_result "error" "check_failed" s) /\
     active_sessions (final run) = active_sessions σ /\
     result (get_authenticated_client s (final run)) = Returned w).
Proof.
  intros Hs Ha He. cbv zeta.
  rewrite (session_status_check_failed σ s w e Hs Ha He). cbv zeta.
  split; [destruct (is_taiga_exception e); reflexivity|].
  split; intros Ht; rewrite Ht; unfold result, final; simpl.
  - repeat split.
    unfold get_authenticated_client; simpl. now rewrite lookup_delete_eq.
  - repeat split.
    unfold get_authenticated_client; simpl. now rewrite Hs, Ha.
Qed.

(** *** Logging in *)

Lemma login_success σ host username password wr b :
  wrapper_login host username password (environment σ) = (Returned (true, wr), b) ->
  login host username password σ =
  (Returned (VDict [("session_id", VStr (fst (uuid4 b)))]),
   World (snd (uuid4 b)) (<[fst (uuid4 b) := wr]> (active_sessions σ)) (api_log σ)).
Proof.
  intros Hl. unfold login, try_except. rewrite Hl.
  destruct (uuid4 b); reflexivity.
Qed.

(** C6.  When the login exchange fails (it raises, or returns a false
    value), [login] raises: no session id is returned, and
    [active_sessions] and the call log are as before.  What it raises
    depends on how the exchange failed.  A [ValueError] or
    [TaigaException] raised by the exchange, as for rejected
    credentials, is the very exception [login] raises.  Any other
    exception of the exchange leaves [login] as a [RuntimeError] whose
    text is ["An unexpected server error occurred during login: "]
    followed by the text of that exception, and an exchange that returns
    a false value gives the same [RuntimeError] about the inner
    ["Login failed for an unknown reason."]. *)
Theorem login_failure σ host username password :
  login_exchange_failed (fst (wrapper_login host username password (environment σ))) = true ->
  let exchange := fst (wrapper_login host username password (environment σ)) in
  let run := login host username password σ in
  (forall e0, exchange = Raised e0 ->
     (exn_class_of e0 = ValueError \/ exn_class_of e0 = TaigaException ->
      result run = Raised e0) /\
     (exn_class_of e0 <> ValueError -> exn_class_of e0 <> TaigaException ->
      result run
        = Raised (Exn RuntimeError
                    ("An unexpected server error occurred during login: "
                     +:+ exn_str e0)))) /\
  (forall wrapper, exchange = Returned (false, wrapper) ->
     result run
       = Raised (Exn RuntimeError
                   ("An unexpected server error occurred during login: "
                    +:+ "Login failed for an unknown reason."))) /\
  (exists e, result run = Raised e) /\
  active_sessions (final run) = active_sessions σ /\
  api_log (final run) = api_log σ.
Proof.
  intros Hf. cbv zeta. unfold login, try_except, result, final.
  destruct (wrapper_login host username password (environment σ)) as [[[ok wr]|e0] b];
    simpl in *.
  - destruct ok; [discriminate|]. simpl.
    split; [intros e0 [=]|].
    split; [intros wrapper _; reflexivity|].
    split; [eexists; reflexivity|]. split; reflexivity.
  - split.
    + intros e1 [= <-]. unfold is_value_error, is_taiga_exception. split.
      * intros [Hc|Hc]; rewrite Hc; reflexivity.
      * intros Hv Ht. destruct (exn_class_of e0); try contradiction; reflexivity.
    + split; [intros wrapper [=]|].
      destruct (is_value_error e0 || is_taiga_exception e0); simpl;
        (split; [eexists; reflexivity|split; reflexivity]).
Qed.

(** *** The update protocol *)

Lemma run_update_unfold u s id :
  run_update u s id =
  (w <- get_authenticated_client s ;;
   data <- lift (change_set u) ;;
   update_entity (resource_of u) w id data).
Proof. destruct u; reflexivity. Qed.

Lemma run_update_valid u s id σ w data :
  active_sessions σ !! s = Some w ->
  is_authenticated w = true ->
  change_set u = Returned data ->
  run_update u s id σ = update_entity (resource_of u) w id data σ.
Proof.
  intros Hs Ha Hc. rewrite run_update_unfold. unfold bind at 1.
  rewrite (get_authenticated_client_ok σ s w Hs Ha).
  unfold bind, lift. rewrite Hc. reflexivity.
Qed.

(** Without a valid session an update issues no call at all. *)
Lemma run_update_invalid u s id σ :
  (~ exists w, active_sessions σ !! s = Some w /\ is_authenticated w = true) ->
  run_update u s id σ = (Raised (Exn PermissionError (invalid_session_message s)), σ).
Proof.
  intros Hn. rewrite run_update_unfold. unfold bind at 1.
  unfold get_authenticated_client.
  destruct (active_sessions σ !! s) as [w|] eqn:Hs; [|reflexivity].
  destruct (is_authenticated w) eqn:Ha; [|reflexivity].
  exfalso. apply Hn. eauto.
Qed.

Lemma update_entity_empty r w id σ :
  update_entity r w id [] σ =
  (surface "updating" (entity_name r) (fst (api_request w (resource_get r id) (environment σ))),
   World (snd (api_request w (resource_get r id) (environment σ)))
         (active_sessions σ) (api_log σ ++ [(w, resource_get r id)])).
Proof.
  unfold update_entity, try_except. simpl. rewrite call_run.
  destruct (fst (api_request w (resource_get r id) (environment σ))); simpl;
    [reflexivity|apply standard_handlers_run].
Qed.

Lemma fetched_version_Some fetch v :
  fetched_version fetch = Some v <->
  exists current, fetch = Returned current /\
                  py_get current "version" VNone = Returned v /\ truthy v = true.
Proof.
  unfold fetched_version, py_get. split.
  - destruct fetch as [[| | | | |d]|]; try discriminate.
    destruct (Dict.get "version" d) as [v'|] eqn:Hg; [|discriminate].
    destruct (truthy v') eqn:Ht; [|discriminate].
    intros [= <-]. exists (VDict d). rewrite Hg. auto.
  - intros (current & -> & Hp & Ht).
    destruct current as [| | | | |d]; try discriminate.
    destruct (Dict.get "version" d) as [v'|]; simpl in Hp.
    + injection Hp as ->. now rewrite Ht.
    + injection Hp as <-. discriminate.
Qed.

(** The fetch gave no usable version: the update stops after its [get]. *)
Lemma update_entity_no_version r w id data σ :
  Dict.is_empty data = false ->
  fetched_version (fst (api_request w (resource_get r id) (environment σ))) = None ->
  update_entity r w id data σ =
  (match fst (api_request w (resource_get r id) (environment σ)) with
   | Raised e => Raised (surfaced "updating" (entity_name r) e)
   | Returned (VDict _) => Raised (version_unavailable r id)
   | Returned current =>
       Raised (surfaced "updating" (entity_name r)
                 (Exn AttributeError
                    ("'" +:+ type_name current +:+ "' object has no attribute 'get'")))
   end,
   World (snd (api_request w (resource_get r id) (environment σ)))
         (active_sessions σ) (api_log σ ++ [(w, resource_get r id)])).
Proof.
  intros Hd Hv. unfold update_entity, try_except. rewrite Hd.
  unfold bind at 1. rewrite call_run.
  destruct (fst (api_request w (resource_get r id) (environment σ))) as [current|e];
    [|apply standard_handlers_run].
  unfold bind, lift.
  destruct current as [| | | | |d]; simpl; try apply standard_handlers_run.
  simpl in Hv.
  destruct (Dict.get "version" d) as [v|]; simpl.
  - destruct (truthy v); [discriminate|]. simpl.
    unfold raise. rewrite standard_handlers_run. reflexivity.
  - unfold raise. rewrite standard_handlers_run. reflexivity.
Qed.

(** The fetch gave a version: the update goes on to the [edit] call,
    unless the unpacked change set repeats a keyword of that call. *)
Lemma update_entity_with_version r w id data σ v :
  Dict.is_empty data = false ->
  fetched_version (fst (api_request w (resource_get r id) (environment σ))) = Some v ->
  update_entity r w id data σ =
  let b1 := snd (api_request w (resource_get r id) (environment σ)) in
  match repeated_keyword r data with
  | Some k =>
      (Raised (surfaced "updating" (entity_name r)
                 (Exn TypeError
                    ("edit() got multiple values for keyword argument '" +:+ k +:+ "'"))),
       World b1 (active_sessions σ) (api_log σ ++ [(w, resource_get r id)]))
  | None =>
      (surface "updating" (entity_name r)
         (fst (api_request w (resource_edit r id v data) b1)),
       World (snd (api_request w (resource_edit r id v data) b1)) (active_sessions σ)
             (api_log σ ++ [(w, resource_get r id); (w, resource_edit r id v data)]))
  end.
Proof.
  intros Hd Hv. apply fetched_version_Some in Hv as (current & Hf & Hp & Ht).
  unfold update_entity, try_except. rewrite Hd.
  unfold bind at 1. rewrite call_run, Hf.
  unfold bind, lift. rewrite Hp, Ht. simpl. unfold edit.
  destruct (repeated_keyword r data) as [k|].
  - unfold raise. apply standard_handlers_run.
  - rewrite call_run. simpl. rewrite <- app_assoc. simpl.
    destruct (fst (api_request w (resource_edit r id v data) _)); simpl;
      [reflexivity|apply standard_handlers_run].
Qed.

(** C1 (amended).  Let an update tool run with a valid session and a
    non-empty change set that repeats no keyword of the [edit] call.  If
    the fetch returns an entity whose [version] is present and true in a
    boolean context, the tool issues exactly that one [get] and then
    exactly one [edit], which carries the fetched version and the change
    set; the tool's result is what [edit] returned, or its exception as
    the standard handlers let it out. *)
Theorem update_get_then_edit (u : update_request) s id σ w data version :
  active_sessions σ !! s = Some w ->
  is_authenticated w = true ->
  change_set u = Returned data ->
  Dict.is_empty data = false ->
  repeated_keyword (resource_of u) data = None ->
  fetched_version
    (fst (api_request w (resource_get (resource_of u) id) (environment σ))) = Some version ->
  let r := resource_of u in
  let run := run_update u s id σ in
  api_log (final run)
    = api_log σ ++ [(w, resource_get r id); (w, resource_edit r id version data)] /\
  result run
    = surface "updating" (entity_name r)
        (fst (api_request w (resource_edit r id version data)
                (snd (api_request w (resource_get r id) (environment σ))))).
Proof.
  intros Hs Ha Hc Hd Hk Hv. cbv zeta.
  rewrite (run_update_valid u s id σ w data Hs Ha Hc).
  rewrite (update_entity_with_version _ w id data σ version Hd Hv).
  cbv zeta. rewrite Hk. split; reflexivity.
Qed.

(** C2.  An update tool called with an empty change set issues no [edit],
    whatever the session.  With a valid session it issues exactly one
    [get] for the entity and nothing else, and returns the entity that
    [get] returned (or lets out the exception of that [get]). *)
Theorem update_empty_short_circuit (u : update_request) s id σ :
  change_set u = Returned [] ->
  let r := resource_of u in
  let run := run_update u s id σ in
  (exists issued, api_log (final run) = api_log σ ++ issued /\
                  List.filter is_edit issued = []) /\
  (forall w, active_sessions σ !! s = Some w -> is_authenticated w = true ->
     api_log (final run) = api_log σ ++ [(w, resource_get r id)] /\
     result run
       = surface "updating" (entity_name r)
           (fst (api_request w (resource_get r id) (environment σ))) /\
     (forall current,
        fst (api_request w (resource_get r id) (environment σ)) = Returned current ->
        result run = Returned current)).
Proof.
  intros Hc. cbv zeta.
  assert (Hvalid : forall w, active_sessions σ !! s = Some w -> is_authenticated w = true ->
            run_update u s id σ = update_entity (resource_of u) w id [] σ).
  { intros w Hs Ha. exact (run_update_valid u s id σ w [] Hs Ha Hc). }
  split.
  - destruct (active_sessions σ !! s) as [w|] eqn:Hs.
    + destruct (is_authenticated w) eqn:Ha.
      * rewrite (Hvalid w eq_refl Ha), update_entity_empty.
        exists [(w, resource_get (resource_of u) id)]. split; reflexivity.
      * rewrite run_update_invalid.
        -- exists []. split; [symmetry; apply app_nil_r|reflexivity].
        -- intros (w' & Hw' & Ha'). rewrite Hs in Hw'. congruence.
    + rewrite run_update_invalid.
      * exists []. split; [symmetry; apply app_nil_r|reflexivity].
      * intros (w' & Hw' & _). rewrite Hs in Hw'. discriminate.
  - intros w Hs Ha. rewrite (Hvalid w Hs Ha), update_entity_empty.
    unfold result, final. simpl. repeat split.
    intros current ->. reflexivity.
Qed.

(** C7 (amended).  Let an update tool run with a valid session and a
    non-empty change set.  If the fetch raises, the tool lets out the
    exception of the fetch (a [TaigaException] unchanged, any other
    wrapped as a server error), not the version error.  If the fetch
    returns an entity whose [version] is missing or false in a boolean
    context, the tool raises the version error: the [ValueError] of the
    guard, wrapped as a server error by the general handler.  The tool
    stops after its [get], issuing no [edit], exactly when the fetch gave
    no usable version or the unpacked change set repeats a keyword of the
    [edit] call. *)
Theorem update_version_guard (u : update_request) s id σ w data :
  active_sessions σ !! s = Some w ->
  is_authenticated w = true ->
  change_set u = Returned data ->
  Dict.is_empty data = false ->
  let r := resource_of u in
  let fetch := fst (api_request w (resource_get r id) (environment σ)) in
  let run := run_update u s id σ in
  (forall e, fetch = Raised e ->
             result run = Raised (surfaced "updating" (entity_name r) e)) /\
  (forall d, fetch = Returned (VDict d) -> fetched_version fetch = None ->
             result run = Raised (version_unavailable r id)) /\
  (api_log (final run) = api_log σ ++ [(w, resource_get r id)] <->
   fetched_version fetch = None \/ repeated_keyword r data <> None).
Proof.
  intros Hs Ha Hc Hd. cbv zeta.
  rewrite (run_update_valid u s id σ w data Hs Ha Hc).
  destruct (fetched_version
              (fst (api_request w (resource_get (resource_of u) id) (environment σ))))
    as [v|] eqn:Hv.
  - rewrite (update_entity_with_version _ w id data σ v Hd Hv). cbv zeta.
    split; [|split].
    + intros e He. rewrite He in Hv. discriminate.
    + intros d _ [=].
    + destruct (repeated_keyword (resource_of u) data) as [k|]; unfold final; simpl.
      * split; [intros _; right; discriminate|reflexivity].
      * split.
        -- intros Heq. apply app_inv_head in Heq. discriminate.
        -- intros [[=]|Hn]. contradiction.
  - rewrite (update_entity_no_version _ w id data σ Hd Hv).
    unfold result, final. simpl.
    split; [|split].
    + intros e ->. reflexivity.
    + intros d -> _. reflexivity.
    + split; [intros _; left|]; reflexivity.
Qed.

(** *** Unassigning *)

(** The change set of [unassign_task_from_user] is empty: [assigned_to=None]
    is indistinguishable from the parameter's default. *)
Lemma unassign_task_change_set :
  change_set (UpdateTask no_fields []) = Returned [].
Proof. reflexivity. Qed.

(** So, with a valid session, unassigning a task only reads it. *)
Lemma unassign_task_reads_only s id σ w :
  active_sessions σ !! s = Some w ->
  is_authenticated w = true ->
  unassign_task_from_user s id σ =
  (surface "updating" "task" (fst (api_request w (resource_get tasks id) (environment σ))),
   World (snd (api_request w (resource_get tasks id) (environment σ)))
         (active_sessions σ) (api_log σ ++ [(w, resource_get tasks id)])).
Proof.
  intros Hs Ha.
  change (unassign_task_from_user s id σ) with (run_update (UpdateTask no_fields []) s id σ).
  rewrite (run_update_valid _ s id σ w [] Hs Ha unassign_task_change_set).
  apply update_entity_empty.
Qed.

(** The three siblings do write: given a fetched version they issue the
    [edit] that sets [assigned_to] to [None]. *)
Lemma unassign_sibling_edits r s id σ w v (m : M B value) :
  r <> tasks ->
  run_unassign r s id = Some m ->
  active_sessions σ !! s = Some w ->
  is_authenticated w = true ->
  fetched_version (fst (api_request w (resource_get r id) (environment σ))) = Some v ->
  api_log (final (m σ))
  = api_log σ ++ [(w, resource_get r id);
                  (w, resource_edit r id v [("assigned_to", VNone)])].
Proof.
  intros Hr Hm Hs Ha Hv.
  assert (Hrun : exists u, m = run_update u s id /\ resource_of u = r /\
                           change_set u = Returned [("assigned_to", VNone)]).
  { destruct r; simpl in Hm; try discriminate; try contradiction;
      injection Hm as <-.
    - exists (UpdateUserStory [("assigned_to", VNone)]). auto.
    - exists (UpdateIssue [("assigned_to", VNone)]). auto.
    - exists (UpdateEpic [("assigned_to", VNone)]). auto. }
  destruct Hrun as (u & -> & <- & Hc).
  rewrite (run_update_valid u s id σ w _ Hs Ha Hc).
  rewrite (update_entity_with_version _ w id [("assigned_to", VNone)] σ v eq_refl Hv).
  cbv zeta.
  assert (Hk : repeated_keyword (resource_of u) [("assigned_to", VNone)] = None)
    by (destruct u; reflexivity).
  rewrite Hk. reflexivity.
Qed.

(** *** Assigning a task by user name *)

Lemma matching_users_length query_lower items users :
  matching_users query_lower items = Returned users ->
  List.length users = List.length (List.filter (member_matches query_lower) items).
Proof.
  revert users. induction items as [|member rest IH]; intros users Hm; simpl in *.
  - injection Hm as <-. reflexivity.
  - unfold member_matches at 1.
    destruct (match_member query_lower member) as [entry|e]; simpl in Hm; [|discriminate].
    destruct (matching_users query_lower rest) as [entries|e]; simpl in Hm; [|discriminate].
    injection Hm as <-.
    destruct entry; simpl; now rewrite (IH entries eq_refl).
Qed.


(** What an entry of the loop says about the member it was built from. *)
Lemma match_member_sound query_lower member u :
  match_member query_lower member = Returned (Some u) ->
  exists user full_name username email,
    py_get member "user" (VDict []) = Returned user /\
    py_get user "full_name" (VStr "") = Returned (VStr full_name) /\
    py_get user "username" (VStr "") = Returned (VStr username) /\
    py_get user "email" (VStr "") = Returned (VStr email) /\
    Str.contains query_lower (str_lower full_name)
      || Str.contains query_lower (str_lower username)
      || Str.contains query_lower (str_lower email) = true /\
    py_getitem u "id" = py_get user "id" VNone /\
    py_getitem u "username" = py_get user "username" VNone /\
    py_getitem u "full_name" = py_get user "full_name" VNone /\
    py_getitem u "email" = py_get user "email" VNone /\
    py_getitem u "role" = py_get member "role_name" VNone /\
    py_getitem u "is_active" = py_get user "is_active" (VBool false).
Proof.
  unfold match_member.
  destruct (py_get member "user" (VDict [])) as [user|] eqn:Huser; simpl; [|discriminate].
  destruct (py_get user "full_name" (VStr "")) as [fn|] eqn:Hfn; simpl; [|discriminate].
  destruct fn as [| | |full_name| |]; simpl; try discriminate.
  destruct (py_get user "username" (VStr "")) as [un|] eqn:Hun; simpl; [|discriminate].
  destruct un as [| | |username| |]; simpl; try discriminate.
  destruct (py_get user "email" (VStr "")) as [em|] eqn:Hem; simpl; [|discriminate].
  destruct em as [| | |email| |]; simpl; try discriminate.
  destruct (_ || _ || _) eqn:Hc; [|discriminate].
  destruct (py_get user "id" VNone) as [a|] eqn:Ha; simpl; [|discriminate].
  destruct (py_get user "username" VNone) as [b|] eqn:Hb; simpl; [|discriminate].
  destruct (py_get user "full_name" VNone) as [c|] eqn:Hcn; simpl; [|discriminate].
  destruct (py_get user "email" VNone) as [d|] eqn:Hd; simpl; [|discriminate].
  destruct (py_get member "role_name" VNone) as [e'|] eqn:He; simpl; [|discriminate].
  destruct (py_get user "is_active" (VBool false)) as [f|] eqn:Hf; simpl; [|discriminate].
  intros [= <-]. exists user, full_name, username, email.
  rewrite Ha, Hb, Hcn, Hd, Hf.
  repeat (split; [first [assumption | reflexivity]|]). reflexivity.
Qed.

Lemma matching_users_shape query_lower items users u :
  matching_users query_lower items = Returned users ->
  In u users ->
  exists member, In member items /\ match_member query_lower member = Returned (Some u).
Proof.
  revert users. induction items as [|member rest IH]; intros users Hm Hin; simpl in Hm.
  - injection Hm as <-. destruct Hin.
  - destruct (match_member query_lower member) as [entry|] eqn:He; simpl in Hm;
      [|discriminate].
    destruct (matching_users query_lower rest) as [entries|]; simpl in Hm; [|discriminate].
    injection Hm as <-.
    destruct entry as [u0|].
    + destruct Hin as [<-|Hin].
      * exists member. split; [now left|exact He].
      * destruct (IH entries eq_refl Hin) as (m & Hm & Hmm). exists m. split; [now right|exact Hmm].
    + destruct (IH entries eq_refl Hin) as (m & Hm & Hmm). exists m. split; [now right|exact Hmm].
Qed.






(** *** Session ids

    [login] takes the id from [uuid4] and stores the wrapper under it
    without looking at the keys already present. *)

Lemma login_resolves σ host username password wr b :
  wrapper_login host username password (environment σ) = (Returned (true, wr), b) ->
  is_authenticated wr = true ->
  result (get_authenticated_client (fst (uuid4 b))
            (final (login host username password σ))) = Returned wr.
Proof.
  intros Hl Ha. rewrite (login_success σ host username password wr b Hl).
  unfold final, result, get_authenticated_client. simpl.
  rewrite lookup_insert_eq, Ha. reflexivity.
Qed.

Lemma login_keeps_others σ host username password wr b s' :
  wrapper_login host username password (environment σ) = (Returned (true, wr), b) ->
  s' <> fst (uuid4 b) ->
  active_sessions (final (login host username password σ)) !! s' = active_sessions σ !! s'.
Proof.
  intros Hl Hne. rewrite (login_success σ host username password wr b Hl).
  unfold final. simpl. apply lookup_insert_ne. congruence.
Qed.

(** When [uuid4] repeats an id that is still a key, the later login
    replaces the earlier session's client. *)
Lemma login_same_id_replaces σ host username password wr b wr0 :
  wrapper_login host username password (environment σ) = (Returned (true, wr), b) ->
  active_sessions σ !! fst (uuid4 b) = Some wr0 ->
  active_sessions (final (login host username password σ)) !! fst (uuid4 b) = Some wr.
Proof.
  intros Hl _. rewrite (login_success σ host username password wr b Hl).
  unfold final. simpl. apply lookup_insert_eq.
Qed.

End Properties.

(* ===================================================================== *)
(** ** The properties on the sample environment *)
(* ===================================================================== *)

Import Sample.

(** Entity 42 is at version 7: the update reads it, then edits it with
    version 7 and the change set. *)
Lemma update_get_then_edit_witness :
  let run := run_update (UpdateUserStory new_title) sid 42 world0 in
  api_log (final run)
    = api_log world0 ++ [(alice, resource_get user_stories 42);
                         (alice, resource_edit user_stories 42 (VInt 7) new_title)] /\
  result run
    = surface "updating" "user story"
        (fst (api_request alice (resource_edit user_stories 42 (VInt 7) new_title)
                (snd (api_request alice (resource_get user_stories 42)
                        (environment world0))))).
Proof.
  exact (update_get_then_edit (UpdateUserStory new_title) sid 42 world0 alice
           new_title (VInt 7) eq_refl eq_refl eq_refl eq_refl eq_refl eq_refl).
Defined.

(** Entity 43 carries no version: with a non-empty change set the update
    issues its [get] and no [edit]. *)
Lemma update_without_version_stops_after_get :
  Dict.is_empty new_title = false /\
  api_log (final (update_user_story sid 43 new_title world0))
    = [(alice, resource_get user_stories 43)] /\
  result (update_user_story sid 43 new_title world0)
    = Raised (version_unavailable user_stories 43).
Proof. repeat split. Qed.

(** An empty change set on entity 42: one [get], whose entity comes back. *)
Lemma update_empty_short_circuit_witness :
  api_log (final (run_update (UpdateTask no_fields []) sid 42 world0))
    = [(alice, resource_get tasks 42)] /\
  result (run_update (UpdateTask no_fields []) sid 42 world0) = Returned entity42.
Proof.
  destruct (update_empty_short_circuit (UpdateTask no_fields []) sid 42 world0 eq_refl)
    as [_ Hvalid].
  destruct (Hvalid alice eq_refl eq_refl) as (Hlog & _ & Hcurrent).
  split; [exact Hlog|apply Hcurrent; reflexivity].
Defined.

(** C3.  On the sample world, [unassign_task_from_user] for task 42 only
    reads the task and returns it as it is: no [edit] is issued and
    [assigned_to] is not set to [None].  The same request for the user
    story 42 issues the [edit] with [assigned_to = None]. *)
Theorem unassign_task_is_read_only :
  api_log (final (unassign_task_from_user sid 42 world0))
    = [(alice, resource_get tasks 42)] /\
  result (unassign_task_from_user sid 42 world0) = Returned entity42 /\
  api_log (final (unassign_user_story_from_user sid 42 world0))
    = [(alice, resource_get user_stories 42);
       (alice, resource_edit user_stories 42 (VInt 7) [("assigned_to", VNone)])].
Proof. repeat split. Qed.

(** The identity check fails with a [TaigaException] in one world and
    with a timeout in the other. *)
Lemma session_status_eviction_witness :
  (result (session_status sid (with_me (Raised (Exn TaigaException "401"))))
     = Returned (status_result "inactive" "token_invalid" sid) /\
   result (get_authenticated_client sid
             (final (session_status sid (with_me (Raised (Exn TaigaException "401"))))))
     = Raised (Exn PermissionError (invalid_session_message sid))) /\
  (result (session_status sid (with_me (Raised (Exn OtherException "timed out"))))
     = Returned (status_result "error" "check_failed" sid) /\
   result (get_authenticated_client sid
             (final (session_status sid (with_me (Raised (Exn OtherException "timed out"))))))
     = Returned alice).
Proof.
  split.
  - assert (Hme : fst (api_request alice users_me
                         (environment (with_me (Raised (Exn TaigaException "401")))))
                   = Raised (Exn TaigaException "401")) by reflexivity.
    destruct (session_status_eviction (with_me (Raised (Exn TaigaException "401")))
                sid alice (Exn TaigaException "401") eq_refl eq_refl Hme)
      as (_ & Hauth & _).
    destruct (Hauth eq_refl) as (Hr & _ & Hl). split; [exact Hr|exact Hl].
  - assert (Hme : fst (api_request alice users_me
                         (environment (with_me (Raised (Exn OtherException "timed out")))))
                   = Raised (Exn OtherException "timed out")) by reflexivity.
    destruct (session_status_eviction (with_me (Raised (Exn OtherException "timed out")))
                sid alice (Exn OtherException "timed out") eq_refl eq_refl Hme)
      as (_ & _ & Hother).
    destruct (Hother eq_refl) as (Hr & _ & Hl). split; [exact Hr|exact Hl].
Defined.

(** A rejected password: [login] raises the backend's exception and the
    store keeps its single entry. *)
Lemma login_failure_witness :
  result (login "https://x.example" "alice" "wrongpw" world0)
    = Raised (Exn TaigaException "Invalid credentials") /\
  active_sessions (final (login "https://x.example" "alice" "wrongpw" world0))
    = active_sessions world0.
Proof.
  assert (Hfailed : login_exchange_failed
                      (fst (wrapper_login "https://x.example" "alice" "wrongpw"
                              (environment world0))) = true) by reflexivity.
  destruct (login_failure world0 "https://x.example" "alice" "wrongpw" Hfailed)
    as (Hraised & _ & _ & Hs & _).
  split; [|exact Hs].
  apply (Hraised (Exn TaigaException "Invalid credentials")); [reflexivity|].
  right. reflexivity.
Defined.

(** The server cannot be reached: the exchange raises a connection
    error, and what [login] raises is not that exception but a
    [RuntimeError] about an unexpected server error. *)
Lemma login_connection_error_is_wrapped :
  fst (wrapper_login "https://x.example" "alice" "goodpw" (environment Faulty.unreachable))
    = Raised (Exn OtherException "Connection refused") /\
  result (login "https://x.example" "alice" "goodpw" Faulty.unreachable)
    = Raised (Exn RuntimeError
                "An unexpected server error occurred during login: Connection refused").
Proof. split; reflexivity. Qed.

(** Entity 43 has no version: the version error, and only the [get]. *)
Lemma update_version_guard_witness :
  result (run_update (UpdateIssue new_title) sid 43 world0)
    = Raised (version_unavailable issues 43) /\
  api_log (final (run_update (UpdateIssue new_title) sid 43 world0))
    = api_log world0 ++ [(alice, resource_get issues 43)].
Proof.
  destruct (update_version_guard (UpdateIssue new_title) sid 43 world0 alice new_title
              eq_refl eq_refl eq_refl eq_refl) as (_ & Hguard & Hlog).
  split.
  - apply (Hguard [("id", VInt 43); ("subject", VStr "Imported")]); reflexivity.
  - apply Hlog. left. reflexivity.
Defined.

(** Entity 44 does not exist: the fetch fails, and what the update raises
    is the backend's exception, which is not the version error. *)
Lemma update_fetch_failure_is_not_version_error :
  fst (api_request alice (resource_get user_stories 44) (environment world0))
    = Raised (Exn TaigaException "Not found") /\
  result (update_user_story sid 44 new_title world0)
    = Raised (Exn TaigaException "Not found") /\
  Exn TaigaException "Not found" <> version_unavailable user_stories 44 /\
  Exn TaigaException "Not found" <> Exn ValueError (version_message user_stories 44).
Proof. repeat split; discriminate. Qed.



(** The query "zed" matches nobody: [ValueError], and no call for the task. *)
Example assign_by_username_no_match :
  result (assign_task_by_username sid 42 1 "zed" world0)
    = Raised (Exn ValueError "No user found matching 'zed' in project 1") /\
  api_log (final (assign_task_by_username sid 42 1 "zed" world0))
    = [(alice, memberships_list (project_query 1))].
Proof. repeat split. Qed.

(** The query "bob" matches one member: the task is fetched and edited. *)
Example assign_by_username_single_match :
  api_log (final (assign_task_by_username sid 42 1 "bob" world0))
    = [(alice, memberships_list (project_query 1));
       (alice, resource_get tasks 42);
       (alice, resource_edit tasks 42 (VInt 7) [("assigned_to", VInt 3)])].
Proof. reflexivity. Qed.

(** Scenario: a successful login stores the wrapper under the new id, and
    the gate resolves that id to it. *)
Example login_then_lookup :
  let run := login "https://x.example" "alice" "goodpw" (World backend0 ∅ []) in
  result run = Returned (VDict [("session_id", VStr "7c9e6679-7425-40de-944b-e07fc1f90ae7")]) /\
  result (get_authenticated_client "7c9e6679-7425-40de-944b-e07fc1f90ae7" (final run))
    = Returned alice.
Proof. split; reflexivity. Qed.

(** Two logins that draw the same id leave one entry, the second one's. *)
Example login_repeated_id :
  let twice := Backend (Returned VNone) ["id-1"; "id-1"] in
  let first := login "https://x.example" "alice" "goodpw" (World twice ∅ []) in
  let second := login "https://x.example" "bob" "goodpw" (final first) in
  result first = result second /\
  result (get_authenticated_client "id-1" (final second))
    = Returned (Wrapper "https://x.example" "bob" true).
Proof. split; reflexivity. Qed.

(* ===================================================================== *)
(** ** Further properties: the session store *)
(* ===================================================================== *)

Section SessionProperties.

Context {B : Type} `{TaigaApi B} {U : PyUnicode}.

Implicit Types (σ : world B) (w : TaigaClientWrapper) (e : exn).

Lemma session_status_runs σ s w :
  active_sessions σ !! s = Some w ->
  is_authenticated w = true ->
  session_status s σ =
  let answer := api_request w users_me (environment σ) in
  let σ1 := World (snd answer) (active_sessions σ) (api_log σ ++ [(w, users_me)]) in
  match fst answer with
  | Returned (VDict d) =>
      (Returned (VDict [("status", VStr "active"); ("session_id", VStr s);
                        ("username", from_option id (VStr "Unknown")
                                       (Dict.get "username" d))]), σ1)
  | Returned _ => (Returned (status_result "error" "check_failed" s), σ1)
  | Raised e =>
      if is_taiga_exception e then
        (Returned (status_result "inactive" "token_invalid" s),
         World (snd answer) (delete s (active_sessions σ)) (api_log σ ++ [(w, users_me)]))
      else (Returned (status_result "error" "check_failed" s), σ1)
  end.
Proof.
  intros Hs Ha. unfold session_status. rewrite Hs, Ha.
  unfold try_except, bind. rewrite call_run. cbv zeta.
  destruct (fst (api_request w users_me (environment σ))) as [me|e]; simpl.
  - destruct me; reflexivity.
  - destruct (is_taiga_exception e); reflexivity.
Qed.

Lemma session_status_idle σ s :
  (~ exists w, active_sessions σ !! s = Some w /\ is_authenticated w = true) ->
  session_status s σ =
  (Returned (status_result "inactive"
               (match active_sessions σ !! s with
                | Some _ => "not_authenticated"
                | None => "not_found"
                end) s), σ).
Proof.
  intros Hn. unfold session_status.
  destruct (active_sessions σ !! s) as [w|] eqn:Hs; [|reflexivity].
  destruct (is_authenticated w) eqn:Ha; [|reflexivity].
  exfalso. apply Hn. eauto.
Qed.

Lemma valid_session_dec σ s :
  (exists w, active_sessions σ !! s = Some w /\ is_authenticated w = true) \/
  (~ exists w, active_sessions σ !! s = Some w /\ is_authenticated w = true).
Proof.
  destruct (active_sessions σ !! s) as [w|] eqn:Hs.
  - destruct (is_authenticated w) eqn:Ha; [left; eauto|].
    right. intros (w' & [= <-] & Ha'). congruence.
  - right. intros (w' & [=] & _).
Qed.

(** X1.  [session_status] never raises, whatever the session id and
    whatever the backend does: it always returns a dict that repeats the
    session id and whose [status] is ["active"], ["inactive"] or
    ["error"]. *)
Theorem session_status_never_raises σ s :
  exists d, result (session_status s σ) = Returned (VDict d) /\
            Dict.get "session_id" d = Some (VStr s) /\
            (Dict.get "status" d = Some (VStr "active") \/
             Dict.get "status" d = Some (VStr "inactive") \/
             Dict.get "status" d = Some (VStr "error")).
Proof.
  destruct (valid_session_dec σ s) as [(w & Hs & Ha)|Hn].
  - rewrite (session_status_runs σ s w Hs Ha). cbv zeta.
    destruct (fst (api_request w users_me (environment σ))) as [me|e].
    + destruct me; eexists; (split; [reflexivity|]); simpl; auto.
    + destruct (is_taiga_exception e); eexists; (split; [reflexivity|]); simpl; auto.
  - rewrite (session_status_idle σ s Hn).
    eexists. split; [reflexivity|]. simpl. auto.
Qed.

(** X2.  For a stored, authenticated client whose identity check returns
    a dict, [session_status] reports ["active"] with the [username] of
    that dict, or ["Unknown"] when the dict has none; the session stays
    in the store and the gate still resolves it. *)
Theorem session_status_active σ s w d :
  active_sessions σ !! s = Some w ->
  is_authenticated w = true ->
  fst (api_request w users_me (environment σ)) = Returned (VDict d) ->
  let run := session_status s σ in
  result run
    = Returned (VDict [("status", VStr "active"); ("session_id", VStr s);
                       ("username", from_option id (VStr "Unknown")
                                      (Dict.get "username" d))]) /\
  active_sessions (final run) = active_sessions σ /\
  result (get_authenticated_client s (final run)) = Returned w.
Proof.
  intros Hs Ha Hme. cbv zeta.
  rewrite (session_status_runs σ s w Hs Ha). cbv zeta. rewrite Hme.
  unfold result, final. simpl. repeat split.
  unfold get_authenticated_client. simpl. now rewrite Hs, Ha.
Qed.

(** X3.  [session_status] touches no session but its own and issues at
    most one call, the identity check: every other key of
    [active_sessions] keeps its value, and without a stored,
    authenticated client the world is left exactly as it was. *)
Theorem session_status_is_local σ s :
  (forall s', s' <> s ->
     active_sessions (final (session_status s σ)) !! s' = active_sessions σ !! s') /\
  (api_log (final (session_status s σ)) = api_log σ \/
   exists w, active_sessions σ !! s = Some w /\
             api_log (final (session_status s σ)) = api_log σ ++ [(w, users_me)]) /\
  ((~ exists w, active_sessions σ !! s = Some w /\ is_authenticated w = true) ->
   final (session_status s σ) = σ).
Proof.
  destruct (valid_session_dec σ s) as [(w & Hs & Ha)|Hn].
  - rewrite (session_status_runs σ s w Hs Ha). cbv zeta.
    assert (Hother : forall s', s' <> s ->
              delete s (active_sessions σ) !! s' = active_sessions σ !! s').
    { intros s' Hne. apply lookup_delete_ne. congruence. }
    split; [|split].
    + intros s' Hne.
      destruct (fst (api_request w users_me (environment σ))) as [me|e].
      * destruct me; reflexivity.
      * destruct (is_taiga_exception e); [apply Hother, Hne|reflexivity].
    + right. exists w. split; [exact Hs|].
      destruct (fst (api_request w users_me (environment σ))) as [me|e].
      * destruct me; reflexivity.
      * destruct (is_taiga_exception e); reflexivity.
    + intros Hn. exfalso. apply Hn. eauto.
  - rewrite (session_status_idle σ s Hn). unfold final. simpl.
    split; [reflexivity|]. split; [left; reflexivity|reflexivity].
Qed.

(** X4.  A successful login returns the id drawn from [uuid4] and stores
    the wrapper under it; every other session id resolves as before, and
    no call is logged.  When the wrapper is authenticated, the gate
    resolves the new id to it. *)
Theorem login_success_registers σ host username password wr b :
  wrapper_login host username password (environment σ) = (Returned (true, wr), b) ->
  let run := login host username password σ in
  let new_session_id := fst (uuid4 b) in
  result run = Returned (VDict [("session_id", VStr new_session_id)]) /\
  active_sessions (final run) !! new_session_id = Some wr /\
  (forall s', s' <> new_session_id ->
     active_sessions (final run) !! s' = active_sessions σ !! s') /\
  api_log (final run) = api_log σ /\
  (is_authenticated wr = true ->
   result (get_authenticated_client new_session_id (final run)) = Returned wr).
Proof.
  intros Hl. cbv zeta. rewrite (login_success σ host username password wr b Hl).
  unfold result, final. simpl.
  split; [reflexivity|]. split; [apply lookup_insert_eq|].
  split; [intros s' Hne; apply lookup_insert_ne; congruence|].
  split; [reflexivity|].
  intros Ha. unfold get_authenticated_client. simpl.
  now rewrite lookup_insert_eq, Ha.
Qed.

(** X5.  Logging in and then logging out the returned id undoes the
    login: when the drawn id was not yet a key, [logout] reports
    [logged_out] and [active_sessions] is again what it was before the
    login. *)
Theorem login_logout_round_trip σ host username password wr b :
  wrapper_login host username password (environment σ) = (Returned (true, wr), b) ->
  active_sessions σ !! fst (uuid4 b) = None ->
  let after_login := final (login host username password σ) in
  let new_session_id := fst (uuid4 b) in
  result (logout new_session_id after_login)
    = Returned (logout_result new_session_id true) /\
  active_sessions (final (logout new_session_id after_login)) = active_sessions σ.
Proof.
  intros Hl Hfresh. cbv zeta.
  rewrite (login_success σ host username password wr b Hl).
  rewrite logout_run. unfold result, final. simpl.
  rewrite lookup_insert_eq. split; [reflexivity|].
  rewrite delete_insert_eq. apply delete_id. exact Hfresh.
Qed.

(** X6.  After [logout] the session id is of no use: the gate raises
    [PermissionError] for it, and every update tool called with it raises
    that [PermissionError] without issuing a call or changing the world. *)
Theorem logout_locks_out σ s :
  let after := final (logout s σ) in
  result (get_authenticated_client s after)
    = Raised (Exn PermissionError (invalid_session_message s)) /\
  (forall (u : update_request) id,
     run_update u s id after
     = (Raised (Exn PermissionError (invalid_session_message s)), after)).
Proof.
  cbv zeta. rewrite logout_run. unfold final. simpl.
  assert (Hgone : ~ exists w,
            active_sessions (World (environment σ) (delete s (active_sessions σ))
                               (api_log σ)) !! s = Some w /\
            is_authenticated w = true).
  { simpl. rewrite lookup_delete_eq. intros (w & [=] & _). }
  split.
  - unfold result, get_authenticated_client. simpl. now rewrite lookup_delete_eq.
  - intros u id. apply run_update_invalid. exact Hgone.
Qed.

(** X7.  [logout] of one session id leaves every other id as it was: the
    gate gives the same answer for it before and after. *)
Theorem logout_keeps_other_sessions σ s s' :
  s' <> s ->
  result (get_authenticated_client s' (final (logout s σ)))
  = result (get_authenticated_client s' σ).
Proof.
  intros Hne. rewrite logout_run. unfold final, result, get_authenticated_client.
  simpl. rewrite lookup_delete_ne by congruence. 
  destruct (active_sessions σ !! s') as [w|]; [destruct (is_authenticated w)|]; reflexivity.
Qed.

End SessionProperties.

(* ===================================================================== *)
(** ** Further properties: dicts and the update tools *)
(* ===================================================================== *)

Lemma dict_get_set k k' v (d : dict) :
  Dict.get k (Dict.set k' v d) = if String.eqb k k' then Some v else Dict.get k d.
Proof.
  induction d as [|[k1 v1] d IH]; simpl.
  - reflexivity.
  - destruct (String.eqb k' k1) eqn:E1; simpl.
    + apply String.eqb_eq in E1 as <-.
      destruct (String.eqb k k'); reflexivity.
    + rewrite IH. destruct (String.eqb k k1) eqn:E2; [|reflexivity].
      apply String.eqb_eq in E2 as ->.
      rewrite String.eqb_sym in E1. now rewrite E1.
Qed.

Lemma dict_get_absent k (d : dict) :
  ~ In k (List.map fst d) -> Dict.get k d = None.
Proof.
  induction d as [|[k1 v1] d IH]; simpl; [reflexivity|].
  intros Hn. destruct (String.eqb k k1) eqn:E.
  - apply String.eqb_eq in E. exfalso. apply Hn. left. congruence.
  - apply IH. intros Hin. apply Hn. now right.
Qed.

Lemma dict_update_not_empty (d other : dict) :
  Dict.is_empty d = false -> Dict.is_empty (Dict.update d other) = false.
Proof.
  revert d. unfold Dict.update.
  induction other as [|[k v] other IH]; intros d Hd; simpl; [exact Hd|].
  apply IH. apply dict_set_not_empty.
Qed.

Lemma dict_update_empty_inv (d other : dict) :
  Dict.update d other = [] -> d = [] /\ other = [].
Proof.
  intros Hu.
  assert (He : Dict.is_empty (Dict.update d other) = true) by now rewrite Hu.
  destruct other as [|[k v] other].
  - split; [exact Hu|reflexivity].
  - change (Dict.update d ((k, v) :: other))
      with (Dict.update (Dict.set k v d) other) in He.
    rewrite dict_update_not_empty in He by apply dict_set_not_empty. discriminate.
Qed.

Lemma dict_get_update k (d other : dict) :
  List.NoDup (List.map fst other) ->
  Dict.get k (Dict.update d other)
  = match Dict.get k other with
    | Some v => Some v
    | None => Dict.get k d
    end.
Proof.
  revert d. induction other as [|[k1 v1] other IH]; intros d Hnd; [reflexivity|].
  change (Dict.update d ((k1, v1) :: other)) with (Dict.update (Dict.set k1 v1 d) other).
  simpl in Hnd. apply List.NoDup_cons_iff in Hnd as [Hfresh Hnd].
  rewrite (IH _ Hnd), dict_get_set. simpl.
  destruct (String.eqb k k1) eqn:E; [|reflexivity].
  apply String.eqb_eq in E as ->.
  now rewrite (dict_get_absent k1 other Hfresh).
Qed.

Lemma set_unless_none_empty k x (d : dict) :
  Dict.is_empty (set_unless_none k x d) = true -> x = VNone /\ d = [].
Proof.
  destruct x; simpl; try (rewrite dict_set_not_empty; discriminate).
  destruct d; [auto|discriminate].
Qed.

Lemma set_unless_none_not_empty k x (d : dict) :
  Dict.is_empty d = false -> Dict.is_empty (set_unless_none k x d) = false.
Proof. intros Hd. destruct x; simpl; try apply dict_set_not_empty; exact Hd. Qed.

Lemma dict_get_set_unless_none k k' x (d : dict) :
  Dict.get k (set_unless_none k' x d)
  = if String.eqb k k' then
      match unless_none x with
      | Some v => Some v
      | None => Dict.get k d
      end
    else Dict.get k d.
Proof.
  destruct x; simpl; rewrite ?dict_get_set; destruct (String.eqb k k'); reflexivity.
Qed.

Section UpdateProperties.

Context {B : Type} `{TaigaApi B} {U : PyUnicode}.

Implicit Types (σ : world B) (w : TaigaClientWrapper) (r : resource) (e : exn).

Lemma run_update_bad_change_set (u : update_request) s id σ w e :
  active_sessions σ !! s = Some w ->
  is_authenticated w = true ->
  change_set u = Raised e ->
  run_update u s id σ = (Raised e, σ).
Proof.
  intros Hs Ha Hc. rewrite run_update_unfold. unfold bind at 1.
  rewrite (get_authenticated_client_ok σ s w Hs Ha).
  unfold bind, lift. rewrite Hc. reflexivity.
Qed.

Lemma surfaced_class operation entity_type e :
  exn_class_of (surfaced operation entity_type e) = TaigaException \/
  exn_class_of (surfaced operation entity_type e) = RuntimeError.
Proof.
  unfold surfaced, is_taiga_exception.
  destruct e as [c m]. destruct c; simpl; auto.
Qed.

Lemma surface_raised_class {A} operation entity_type (o : outcome A) e :
  surface operation entity_type o = Raised e ->
  exn_class_of e = TaigaException \/ exn_class_of e = RuntimeError.
Proof.
  destruct o as [a|e0]; simpl; [discriminate|].
  intros [= <-]. apply surfaced_class.
Qed.

(** What the common body of the update tools does, by cases. *)
Lemma update_entity_cases r w id data σ :
  exists o σ',
    update_entity r w id data σ = (o, σ') /\
    active_sessions σ' = active_sessions σ /\
    (forall e, o = Raised e ->
               exn_class_of e = TaigaException \/ exn_class_of e = RuntimeError).
Proof.
  destruct data as [|kv data].
  - rewrite update_entity_empty. do 2 eexists. split; [reflexivity|].
    split; [reflexivity|]. intros e. apply surface_raised_class.
  - destruct (fetched_version
                (fst (api_request w (resource_get r id) (environment σ)))) as [v|] eqn:Hv.
    + rewrite (update_entity_with_version r w id (kv :: data) σ v eq_refl Hv). cbv zeta.
      destruct (repeated_keyword r (kv :: data)); do 2 eexists;
        (split; [reflexivity|]); (split; [reflexivity|]); intros e.
      * intros [= <-]. apply surfaced_class.
      * apply surface_raised_class.
    + rewrite (update_entity_no_version r w id (kv :: data) σ eq_refl Hv).
      do 2 eexists. split; [reflexivity|]. split; [reflexivity|].
      intros e.
      destruct (fst (api_request w (resource_get r id) (environment σ))) as [cur|e0].
      * destruct cur; intros [= <-]; solve [apply surfaced_class | right; reflexivity].
      * intros [= <-]. apply surfaced_class.
Qed.

Lemma change_set_raises (u : update_request) e :
  change_set u = Raised e ->
  resource_of u = tasks /\ exn_class_of e = AttributeError.
Proof.
  destruct u as [kw|kw|f kw|kw|kw|kw]; simpl; try discriminate.
  unfold task_update_data. destruct (tags f); simpl; try discriminate;
    intros [= <-]; split; reflexivity.
Qed.

(** Every run of an update tool, by cases on the session and the change
    set. *)
Lemma run_update_cases (u : update_request) s id σ :
  exists o σ',
    run_update u s id σ = (o, σ') /\
    active_sessions σ' = active_sessions σ /\
    (forall e, o = Raised e ->
       update_error_class (exn_class_of e) = true /\
       (exn_class_of e = AttributeError -> resource_of u = tasks)).
Proof.
  destruct (valid_session_dec σ s) as [(w & Hs & Ha)|Hn].
  - destruct (change_set u) as [data|e0] eqn:Hc.
    + rewrite (run_update_valid u s id σ w data Hs Ha Hc).
      destruct (update_entity_cases (resource_of u) w id data σ) as (o & σ' & -> & Hk & He).
      exists o, σ'. split; [reflexivity|]. split; [exact Hk|].
      intros e Ho. destruct (He e Ho) as [Hcl|Hcl]; rewrite Hcl; split;
        (reflexivity || discriminate).
    + rewrite (run_update_bad_change_set u s id σ w e0 Hs Ha Hc).
      destruct (change_set_raises u e0 Hc) as [Hr Hcl].
      do 2 eexists. split; [reflexivity|]. split; [reflexivity|].
      intros e [= <-]. rewrite Hcl. split; [reflexivity|intros _; exact Hr].
  - rewrite (run_update_invalid u s id σ Hn).
    do 2 eexists. split; [reflexivity|]. split; [reflexivity|].
    intros e [= <-]. split; [reflexivity|discriminate].
Qed.

(** X8.  No update tool ever changes [active_sessions]: whatever the
    session id, the change set and the backend's answers, the store after
    the call is the store before it. *)
Theorem update_keeps_sessions (u : update_request) s id σ :
  active_sessions (final (run_update u s id σ)) = active_sessions σ.
Proof.
  destruct (run_update_cases u s id σ) as (o & σ' & -> & Hk & _). exact Hk.
Qed.

(** X9.  An exception that an update tool lets out is a
    [PermissionError], a [TaigaException], a [RuntimeError] or an
    [AttributeError], and an [AttributeError] only from [update_task]
    (a [tags] argument that is not a string).  In particular the
    [ValueError] of the version guard never reaches the caller as a
    [ValueError]. *)
Theorem update_error_classes (u : update_request) s id σ e :
  result (run_update u s id σ) = Raised e ->
  update_error_class (exn_class_of e) = true /\
  exn_class_of e <> ValueError /\
  (exn_class_of e = AttributeError -> resource_of u = tasks).
Proof.
  destruct (run_update_cases u s id σ) as (o & σ' & -> & _ & He).
  unfold result. simpl. intros ->.
  destruct (He e eq_refl) as [Hc Ht]. split; [exact Hc|]. split; [|exact Ht].
  intros Hv. rewrite Hv in Hc. discriminate.
Qed.

(** X10.  The change set of [update_task] is empty exactly when every
    named parameter is [None] and [kwargs] is empty; so these are the
    only calls of [update_task] that take the read-only short cut. *)
Theorem task_change_set_empty_iff (f : task_fields) (kwargs : dict) :
  task_update_data f kwargs = Returned [] <-> f = no_fields /\ kwargs = [].
Proof.
  split.
  - unfold task_update_data. destruct f as [sub des due tg asg mil sta ust]. simpl.
    destruct (set_tags tg _) as [d0|e] eqn:Ht; [|discriminate].
    intros [= Hu]. apply dict_update_empty_inv in Hu as [Hd ->].
    split; [|reflexivity].
    assert (He : forall d, d = [] -> Dict.is_empty d = true) by (intros d ->; reflexivity).
    apply He in Hd.
    apply set_unless_none_empty in Hd as [-> Hd]. apply He in Hd.
    apply set_unless_none_empty in Hd as [-> Hd]. apply He in Hd.
    apply set_unless_none_empty in Hd as [-> Hd]. apply He in Hd.
    apply set_unless_none_empty in Hd as [-> Hd]. subst d0.
    assert (Htg : tg = VNone /\
                  set_unless_none "due_date" due
                    (set_unless_none "description" des
                       (set_unless_none "subject" sub [])) = []).
    { destruct tg; simpl in Ht; try discriminate.
      - injection Ht as Ht. auto.
      - injection Ht as Ht.
        assert (Hc : Dict.is_empty
                       (Dict.set "tags" (VList (List.map VStr (Str.parse_tags s)))
                          (set_unless_none "due_date" due
                             (set_unless_none "description" des
                                (set_unless_none "subject" sub [])))) = true)
          by now rewrite Ht.
        rewrite dict_set_not_empty in Hc. discriminate. }
    destruct Htg as [-> Hd]. apply He in Hd.
    apply set_unless_none_empty in Hd as [-> Hd]. apply He in Hd.
    apply set_unless_none_empty in Hd as [-> Hd]. apply He in Hd.
    apply set_unless_none_empty in Hd as [-> _].
    reflexivity.
  - intros [-> ->]. reflexivity.
Qed.

(** X11.  What [update_task] sends under each key: the value [kwargs]
    gives for the key if it gives one (so a key of [kwargs] such as
    [milestone] overrides the named parameter [milestone_id]), otherwise
    the named parameter behind the key unless it is [None].  A parameter
    that is false but not [None] (0, the empty string) is sent. *)
Theorem task_change_set_lookup (f : task_fields) (kwargs d : dict) k :
  unique_keys kwargs ->
  task_update_data f kwargs = Returned d ->
  Dict.get k d = match Dict.get k kwargs with
                 | Some v => Some v
                 | None => field_value f k
                 end.
Proof.
  intros Hu. unfold task_update_data.
  destruct (set_tags (tags f) _) as [d0|e] eqn:Ht; [|discriminate].
  intros [= <-]. rewrite (dict_get_update k _ kwargs Hu).
  destruct (Dict.get k kwargs) as [v|]; [reflexivity|].
  rewrite !dict_get_set_unless_none.
  assert (Hd0 : Dict.get k d0
                = if String.eqb k "tags" then
                    match tags f with
                    | VStr s => Some (VList (List.map VStr (Str.parse_tags s)))
                    | _ => None
                    end
                  else Dict.get k (set_unless_none "due_date" (due_date f)
                                     (set_unless_none "description" (description f)
                                        (set_unless_none "subject" (subject f) [])))).
  { destruct (tags f); simpl in Ht; try discriminate; injection Ht as <-.
    - destruct (String.eqb k "tags") eqn:E; [|reflexivity].
      apply String.eqb_eq in E as ->. rewrite !dict_get_set_unless_none. reflexivity.
    - rewrite dict_get_set. reflexivity. }
  rewrite Hd0, !dict_get_set_unless_none. unfold field_value.
  destruct (String.eqb k "subject") eqn:E1.
  { apply String.eqb_eq in E1 as ->. cbn.
    destruct (unless_none (subject f)); reflexivity. }
  destruct (String.eqb k "description") eqn:E2.
  { apply String.eqb_eq in E2 as ->. cbn.
    destruct (unless_none (description f)); reflexivity. }
  destruct (String.eqb k "due_date") eqn:E3.
  { apply String.eqb_eq in E3 as ->. cbn.
    destruct (unless_none (due_date f)); reflexivity. }
  destruct (String.eqb k "tags") eqn:E4.
  { apply String.eqb_eq in E4 as ->. reflexivity. }
  destruct (String.eqb k "assigned_to") eqn:E5.
  { apply String.eqb_eq in E5 as ->. cbn.
    destruct (unless_none (assigned_to f)); reflexivity. }
  destruct (String.eqb k "milestone") eqn:E6.
  { apply String.eqb_eq in E6 as ->. cbn.
    destruct (unless_none (milestone_id f)); reflexivity. }
  destruct (String.eqb k "status") eqn:E7.
  { apply String.eqb_eq in E7 as ->. cbn.
    destruct (unless_none (status_id f)); reflexivity. }
  destruct (String.eqb k "user_story") eqn:E8.
  { apply String.eqb_eq in E8 as ->. cbn.
    destruct (unless_none (user_story_id f)); reflexivity. }
  reflexivity.
Qed.

End UpdateProperties.

(* ===================================================================== *)
(** ** Further properties: assigning, searching, reading *)
(* ===================================================================== *)

Lemma contains_empty (hay : string) : Str.contains "" hay = true.
Proof. destruct hay; reflexivity. Qed.

Section AssignProperties.

Context {B : Type} `{TaigaApi B} {U : PyUnicode}.

Implicit Types (σ : world B) (w : TaigaClientWrapper) (r : resource) (e : exn).


(** X12.  The four assign tools (user story, task, issue, epic) write:
    with a valid session and a fetched version they issue the [get] and
    then one [edit] whose change set is exactly [assigned_to = user_id],
    tagged with the fetched version, and return what that [edit]
    returned. *)
Theorem assign_edits r s id user_id σ w v (m : M B value) :
  run_assign r s id user_id = Some m ->
  active_sessions σ !! s = Some w ->
  is_authenticated w = true ->
  fetched_version (fst (api_request w (resource_get r id) (environment σ))) = Some v ->
  api_log (final (m σ))
    = api_log σ ++ [(w, resource_get r id);
                    (w, resource_edit r id v [("assigned_to", VInt user_id)])] /\
  result (m σ)
    = surface "updating" (entity_name r)
        (fst (api_request w (resource_edit r id v [("assigned_to", VInt user_id)])
                (snd (api_request w (resource_get r id) (environment σ))))).
Proof.
  intros Hm Hs Ha Hv.
  assert (Hrun : exists u, m = run_update u s id /\ resource_of u = r /\
                           change_set u = Returned [("assigned_to", VInt user_id)]).
  { destruct r; simpl in Hm; try discriminate; injection Hm as <-.
    - exists (UpdateUserStory [("assigned_to", VInt user_id)]). auto.
    - exists (UpdateTask (assigned_to_only (VInt user_id)) []). auto.
    - exists (UpdateIssue [("assigned_to", VInt user_id)]). auto.
    - exists (UpdateEpic [("assigned_to", VInt user_id)]). auto. }
  destruct Hrun as (u & -> & <- & Hc).
  rewrite (run_update_valid u s id σ w _ Hs Ha Hc).
  rewrite (update_entity_with_version _ w id [("assigned_to", VInt user_id)] σ v eq_refl Hv).
  cbv zeta.
  assert (Hk : repeated_keyword (resource_of u) [("assigned_to", VInt user_id)] = None)
    by (destruct u; reflexivity).
  rewrite Hk. split; reflexivity.
Qed.

Lemma try_except_standard_class {A} (body : M B A) operation entity_type σ e :
  fst (try_except body (standard_handlers operation entity_type) σ) = Raised e ->
  exn_class_of e = TaigaException \/ exn_class_of e = RuntimeError.
Proof.
  unfold try_except. destruct (body σ) as [[a|e0] σ']; simpl; [discriminate|].
  rewrite standard_handlers_run. intros [= <-]. apply surfaced_class.
Qed.

(** What [search_users] does once the membership listing has answered. *)
Lemma search_users_listed s project_id query σ w members :
  active_sessions σ !! s = Some w ->
  is_authenticated w = true ->
  fst (api_request w (memberships_list (project_query project_id)) (environment σ))
    = Returned members ->
  search_users s project_id query σ =
  (surface "searching" "users"
     (and_then (py_iter members) (matching_users (str_lower query))),
   World (snd (api_request w (memberships_list (project_query project_id)) (environment σ)))
         (active_sessions σ)
         (api_log σ ++ [(w, memberships_list (project_query project_id))])).
Proof.
  intros Hs Ha Hm. unfold search_users. unfold bind at 1.
  rewrite (get_authenticated_client_ok σ s w Hs Ha).
  unfold try_except, bind. rewrite call_run, Hm. unfold lift.
  destruct (py_iter members) as [items|e]; simpl;
    [|apply standard_handlers_run].
  destruct (matching_users (str_lower query) items); simpl;
    [reflexivity|apply standard_handlers_run].
Qed.

Lemma search_users_invalid s project_id query σ :
  (~ exists w, active_sessions σ !! s = Some w /\ is_authenticated w = true) ->
  search_users s project_id query σ
  = (Raised (Exn PermissionError (invalid_session_message s)), σ).
Proof.
  intros Hn. unfold search_users. unfold bind at 1. unfold get_authenticated_client.
  destruct (active_sessions σ !! s) as [w|] eqn:Hs; [|reflexivity].
  destruct (is_authenticated w) eqn:Ha; [|reflexivity].
  exfalso. apply Hn. eauto.
Qed.

Lemma search_users_raises s project_id query σ e :
  fst (search_users s project_id query σ) = Raised e ->
  is_value_error e = false.
Proof.
  destruct (valid_session_dec σ s) as [(w & Hs & Ha)|Hn].
  - unfold search_users. unfold bind at 1.
    rewrite (get_authenticated_client_ok σ s w Hs Ha).
    intros He. apply try_except_standard_class in He.
    unfold is_value_error. destruct He as [-> | ->]; reflexivity.
  - rewrite (search_users_invalid s project_id query σ Hn). intros [= <-]. reflexivity.
Qed.

(** When [search_users] returns, its entries are those of the loop over
    the listed members. *)
Lemma search_users_returns s project_id query σ users :
  fst (search_users s project_id query σ) = Returned users ->
  exists w members items,
    active_sessions σ !! s = Some w /\ is_authenticated w = true /\
    fst (api_request w (memberships_list (project_query project_id)) (environment σ))
      = Returned members /\
    py_iter members = Returned items /\
    matching_users (str_lower query) items = Returned users.
Proof.
  destruct (valid_session_dec σ s) as [(w & Hs & Ha)|Hn].
  - destruct (fst (api_request w (memberships_list (project_query project_id))
                     (environment σ))) as [members|e0] eqn:Hm.
    + rewrite (search_users_listed s project_id query σ w members Hs Ha Hm). simpl.
      destruct (py_iter members) as [items|e1] eqn:Hi; simpl; [|discriminate].
      destruct (matching_users (str_lower query) items) as [us|e2] eqn:Hu; simpl;
        [|discriminate].
      intros [= <-]. exists w, members, items. auto.
    + unfold search_users. unfold bind at 1.
      rewrite (get_authenticated_client_ok σ s w Hs Ha).
      unfold try_except, bind. rewrite call_run, Hm. simpl.
      rewrite standard_handlers_run. discriminate.
  - rewrite (search_users_invalid s project_id query σ Hn). discriminate.
Qed.

Lemma match_member_shape query_lower member u :
  match_member query_lower member = Returned (Some u) ->
  exists u_id u_username u_full_name u_email u_role u_active,
    u = VDict [("id", u_id); ("username", u_username); ("full_name", u_full_name);
               ("email", u_email); ("role", u_role); ("is_active", u_active)].
Proof.
  unfold match_member.
  destruct (py_get member "user" (VDict [])) as [user|]; simpl; [|discriminate].
  destruct (py_get user "full_name" (VStr "")) as [fn|]; simpl; [|discriminate].
  destruct (py_lower fn) as [full_name|]; simpl; [|discriminate].
  destruct (py_get user "username" (VStr "")) as [un|]; simpl; [|discriminate].
  destruct (py_lower un) as [username|]; simpl; [|discriminate].
  destruct (py_get user "email" (VStr "")) as [em|]; simpl; [|discriminate].
  destruct (py_lower em) as [email|]; simpl; [|discriminate].
  destruct (_ || _ || _); [|discriminate].
  destruct (py_get user "id" VNone) as [a|]; simpl; [|discriminate].
  destruct (py_get user "username" VNone) as [b|]; simpl; [|discriminate].
  destruct (py_get user "full_name" VNone) as [c|]; simpl; [|discriminate].
  destruct (py_get user "email" VNone) as [d|]; simpl; [|discriminate].
  destruct (py_get member "role_name" VNone) as [e'|]; simpl; [|discriminate].
  destruct (py_get user "is_active" (VBool false)) as [f|]; simpl; [|discriminate].
  intros [= <-]. repeat eexists.
Qed.

Lemma match_member_empty_query member entry :
  match_member "" member = Returned entry -> entry <> None.
Proof.
  unfold match_member.
  destruct (py_get member "user" (VDict [])) as [user|]; simpl; [|discriminate].
  destruct (py_get user "full_name" (VStr "")) as [fn|]; simpl; [|discriminate].
  destruct (py_lower fn) as [full_name|]; simpl; [|discriminate].
  destruct (py_get user "username" (VStr "")) as [un|]; simpl; [|discriminate].
  destruct (py_lower un) as [username|]; simpl; [|discriminate].
  destruct (py_get user "email" (VStr "")) as [em|]; simpl; [|discriminate].
  destruct (py_lower em) as [email|]; simpl; [|discriminate].
  rewrite contains_empty. simpl.
  destruct (py_get user "id" VNone) as [a|]; simpl; [|discriminate].
  destruct (py_get user "username" VNone) as [b|]; simpl; [|discriminate].
  destruct (py_get user "full_name" VNone) as [c|]; simpl; [|discriminate].
  destruct (py_get user "email" VNone) as [d|]; simpl; [|discriminate].
  destruct (py_get member "role_name" VNone) as [e'|]; simpl; [|discriminate].
  destruct (py_get user "is_active" (VBool false)) as [f|]; simpl; [|discriminate].
  intros [= <-]. discriminate.
Qed.

Lemma matching_users_empty_query items users :
  matching_users "" items = Returned users ->
  List.length users = List.length items.
Proof.
  revert users. induction items as [|member rest IH]; intros users Hm; simpl in Hm.
  - injection Hm as <-. reflexivity.
  - destruct (match_member "" member) as [entry|] eqn:He; simpl in Hm; [|discriminate].
    destruct (matching_users "" rest) as [entries|]; simpl in Hm; [|discriminate].
    injection Hm as <-.
    destruct entry as [u0|]; [|exfalso; exact (match_member_empty_query _ _ He eq_refl)].
    simpl. now rewrite (IH entries eq_refl).
Qed.

End AssignProperties.

Section SearchProperties.

Context {B : Type} `{TaigaApi B} {U : PyUnicode}.

Implicit Types (σ : world B) (w : TaigaClientWrapper) (r : resource) (e : exn).


(** X14.  Whatever goes wrong inside [assign_task_by_username], only two
    exceptions can leave it: the [ValueError] that no user matches, and
    the [TypeError] raised by its second handler, which calls
    [handle_general_exception] with an argument missing.  No
    [PermissionError], [TaigaException] or [RuntimeError] reaches the
    caller. *)
Theorem assign_by_username_error_classes s task_id project_id username σ e :
  result (assign_task_by_username s task_id project_id username σ) = Raised e ->
  e = Exn ValueError (no_user_message username project_id) \/ e = handler_arity_error.
Proof.
  unfold result, assign_task_by_username, try_except.
  destruct (bind _ _ σ) as [[res|e0] σ'] eqn:Hbody; simpl; [discriminate|].
  destruct (is_value_error e0) eqn:Hve; unfold raise; simpl;
    [|intros [= <-]; now right].
  intros [= <-]. left.
  unfold bind at 1 in Hbody.
  destruct (search_users s project_id username σ) as [[users|e1] σ1] eqn:Hsearch.
  - destruct users as [|user [|user2 rest]].
    + unfold raise in Hbody. congruence.
    + unfold bind at 1 in Hbody. unfold lift at 1 in Hbody.
      destruct (py_getitem user "id") as [user_id|e2] eqn:Hid.
      * unfold bind at 1 in Hbody.
        change (update_task s task_id
                  (TaskFields VNone VNone VNone VNone user_id VNone VNone VNone) [])
          with (run_update (UpdateTask (assigned_to_only user_id) []) s task_id) in Hbody.
        destruct (run_update_cases (UpdateTask (assigned_to_only user_id) []) s task_id σ1)
          as (o & σ2 & Hrun & _ & Hcl).
        rewrite Hrun in Hbody. destruct o as [res|e3].
        -- unfold lift in Hbody.
           destruct res; simpl in Hbody; inversion Hbody; subst; discriminate.
        -- inversion Hbody; subst. destruct (Hcl e0 eq_refl) as [Hc _].
           unfold is_value_error in Hve. destruct (exn_class_of e0); discriminate.
      * inversion Hbody; subst.
        unfold py_getitem in Hid.
        destruct user as [| | | | |d]; try (inversion Hid; subst; discriminate).
        destruct (Dict.get "id" d); [discriminate|]. inversion Hid; subst. discriminate.
    + unfold ret in Hbody. discriminate.
  - inversion Hbody; subst.
    assert (Hs : fst (search_users s project_id username σ) = Raised e0)
      by now rewrite Hsearch.
    apply search_users_raises in Hs. congruence.
Qed.

(** X15.  Called with a session id the gate rejects,
    [assign_task_by_username] does not raise the gate's
    [PermissionError]: the handler turns it into the [TypeError] of the
    missing argument.  No call is issued and the world is unchanged. *)
Theorem assign_by_username_invalid_session s task_id project_id username σ :
  (~ exists w, active_sessions σ !! s = Some w /\ is_authenticated w = true) ->
  assign_task_by_username s task_id project_id username σ
  = (Raised handler_arity_error, σ).
Proof.
  intros Hn. unfold assign_task_by_username, try_except. unfold bind at 1.
  rewrite (search_users_invalid s project_id username σ Hn). reflexivity.
Qed.

(** X16.  The empty query matches every member: when [search_users]
    returns for the query [""], it returns one entry per listed member. *)
Theorem search_empty_query_matches_all s project_id σ w items users :
  active_sessions σ !! s = Some w ->
  is_authenticated w = true ->
  fst (api_request w (memberships_list (project_query project_id)) (environment σ))
    = Returned (VList items) ->
  result (search_users s project_id "" σ) = Returned users ->
  List.length users = List.length items.
Proof.
  intros Hs Ha Hm. unfold result.
  rewrite (search_users_listed s project_id "" σ w (VList items) Hs Ha Hm). simpl.
  rewrite str_lower_empty.
  destruct (matching_users "" items) as [us|e] eqn:Hu; simpl; [|discriminate].
  intros [= <-]. exact (matching_users_empty_query items us Hu).
Qed.

(** X18.  Every entry [search_users] returns is a dict with exactly the
    keys [id], [username], [full_name], [email], [role], [is_active], in
    this order, so reading [user['id']] or [user['full_name']] off an
    entry cannot fail.  The entries come from the members the tool's own
    [memberships.list] call returned: each is the entry the loop builds
    for one of them, there is one per matching member, and never more
    entries than members. *)
Theorem search_users_entries s project_id query σ users :
  result (search_users s project_id query σ) = Returned users ->
  (forall u, In u users ->
     exists u_id u_username u_full_name u_email u_role u_active,
       u = VDict [("id", u_id); ("username", u_username); ("full_name", u_full_name);
                  ("email", u_email); ("role", u_role); ("is_active", u_active)] /\
       py_getitem u "id" = Returned u_id) /\
  (exists w members items,
     active_sessions σ !! s = Some w /\
     is_authenticated w = true /\
     fst (api_request w (memberships_list (project_query project_id)) (environment σ))
       = Returned members /\
     py_iter members = Returned items /\
     (forall u, In u users ->
        exists member, In member items /\
                       match_member (str_lower query) member = Returned (Some u)) /\
     List.length users
       = List.length (List.filter (member_matches (str_lower query)) items) /\
     (List.length users <= List.length items)%nat).
Proof.
  intros Hr.
  apply search_users_returns in Hr as (w & members & items & Hs & Ha & Hl & Hi & Hu).
  split.
  - intros u Hin.
    destruct (matching_users_shape _ items users u Hu Hin) as (member & _ & Hm).
    destruct (match_member_shape _ member u Hm) as (a & b & c & d & e' & f & ->).
    exists a, b, c, d, e', f. split; reflexivity.
  - exists w, members, items. repeat (split; [assumption|]).
    split; [|split].
    + intros u Hin. exact (matching_users_shape _ items users u Hu Hin).
    + exact (matching_users_length _ items users Hu).
    + rewrite (matching_users_length _ items users Hu). apply List.filter_length_le.
Qed.

(** X19.  The six get tools only read: none ever changes
    [active_sessions]; with a valid session each issues exactly one
    [get] for the id and returns what it returned (a [TaigaException]
    unchanged, any other exception as a server error); with a session id
    the gate rejects each raises [PermissionError] and issues no call. *)
Theorem get_tools_read_only r s id σ :
  active_sessions (final (run_get r s id σ)) = active_sessions σ /\
  (forall w, active_sessions σ !! s = Some w -> is_authenticated w = true ->
     api_log (final (run_get r s id σ)) = api_log σ ++ [(w, resource_get r id)] /\
     result (run_get r s id σ)
       = surface "getting" (entity_name r)
           (fst (api_request w (resource_get r id) (environment σ)))) /\
  ((~ exists w, active_sessions σ !! s = Some w /\ is_authenticated w = true) ->
   run_get r s id σ = (Raised (Exn PermissionError (invalid_session_message s)), σ)).
Proof.
  assert (Hunfold : run_get r s id
                    = (w <- get_authenticated_client s ;; get_entity r w id))
    by (destruct r; reflexivity).
  assert (Hvalid : forall w, active_sessions σ !! s = Some w -> is_authenticated w = true ->
            run_get r s id σ
            = (surface "getting" (entity_name r)
                 (fst (api_request w (resource_get r id) (environment σ))),
               World (snd (api_request w (resource_get r id) (environment σ)))
                     (active_sessions σ) (api_log σ ++ [(w, resource_get r id)]))).
  { intros w Hs Ha. rewrite Hunfold. unfold bind.
    rewrite (get_authenticated_client_ok σ s w Hs Ha).
    unfold get_entity, try_except. rewrite call_run.
    destruct (fst (api_request w (resource_get r id) (environment σ))); simpl;
      [reflexivity|apply standard_handlers_run]. }
  assert (Hinvalid : (~ exists w, active_sessions σ !! s = Some w /\
                                  is_authenticated w = true) ->
            run_get r s id σ = (Raised (Exn PermissionError (invalid_session_message s)), σ)).
  { intros Hn. rewrite Hunfold. unfold bind, get_authenticated_client.
    destruct (active_sessions σ !! s) as [w|] eqn:Hs; [|reflexivity].
    destruct (is_authenticated w) eqn:Ha; [|reflexivity].
    exfalso. apply Hn. eauto. }
  split; [|split].
  - destruct (valid_session_dec σ s) as [(w & Hs & Ha)|Hn].
    + now rewrite (Hvalid w Hs Ha).
    + now rewrite (Hinvalid Hn).
  - intros w Hs Ha. rewrite (Hvalid w Hs Ha). split; reflexivity.
  - exact Hinvalid.
Qed.

Lemma get_project_members_run s project_id σ w :
  active_sessions σ !! s = Some w ->
  is_authenticated w = true ->
  get_project_members s project_id σ =
  (surface "getting" "project members"
     (fst (api_request w (memberships_list (project_query project_id)) (environment σ))),
   World (snd (api_request w (memberships_list (project_query project_id)) (environment σ)))
         (active_sessions σ)
         (api_log σ ++ [(w, memberships_list (project_query project_id))])).
Proof.
  intros Hs Ha. unfold get_project_members, bind.
  rewrite (get_authenticated_client_ok σ s w Hs Ha).
  unfold try_except. rewrite call_run.
  destruct (fst (api_request w (memberships_list (project_query project_id))
                   (environment σ))) as [members|e]; simpl; [reflexivity|].
  unfold handle_taiga_exception, handle_general_exception, raise, surfaced.
  destruct (is_taiga_exception e); reflexivity.
Qed.

Lemma get_project_members_invalid s project_id σ :
  (~ exists w, active_sessions σ !! s = Some w /\ is_authenticated w = true) ->
  get_project_members s project_id σ
  = (Raised (Exn PermissionError (invalid_session_message s)), σ).
Proof.
  intros Hn. unfold get_project_members, bind, get_authenticated_client.
  destruct (active_sessions σ !! s) as [w|] eqn:Hs; [|reflexivity].
  destruct (is_authenticated w) eqn:Ha; [|reflexivity].
  exfalso. apply Hn. eauto.
Qed.

(** X20.  [search_users] works on the listing [get_project_members]
    returns.  When [get_project_members] returns a list, [search_users]
    leaves the same world behind (the same single call, the same
    sessions), and every entry it returns is taken from a member of that
    list: the lower-cased query occurs in the lower-cased full name,
    username or email of the member's user, the entry's [id],
    [username], [full_name], [email] and [is_active] are those of that
    user and its [role] is the member's [role_name]. *)
Theorem search_users_over_project_members s project_id query σ items :
  result (get_project_members s project_id σ) = Returned (VList items) ->
  final (search_users s project_id query σ) = final (get_project_members s project_id σ) /\
  (forall users, result (search_users s project_id query σ) = Returned users ->
     forall u, In u users ->
       exists member user full_name username email,
         In member items /\
         py_get member "user" (VDict []) = Returned user /\
         py_get user "full_name" (VStr "") = Returned (VStr full_name) /\
         py_get user "username" (VStr "") = Returned (VStr username) /\
         py_get user "email" (VStr "") = Returned (VStr email) /\
         Str.contains (str_lower query) (str_lower full_name)
           || Str.contains (str_lower query) (str_lower username)
           || Str.contains (str_lower query) (str_lower email) = true /\
         py_getitem u "id" = py_get user "id" VNone /\
         py_getitem u "username" = py_get user "username" VNone /\
         py_getitem u "full_name" = py_get user "full_name" VNone /\
         py_getitem u "email" = py_get user "email" VNone /\
         py_getitem u "role" = py_get member "role_name" VNone /\
         py_getitem u "is_active" = py_get user "is_active" (VBool false)).
Proof.
  destruct (valid_session_dec σ s) as [(w & Hs & Ha)|Hn].
  - rewrite (get_project_members_run s project_id σ w Hs Ha). unfold result at 1. simpl.
    destruct (fst (api_request w (memberships_list (project_query project_id))
                     (environment σ))) as [members|e] eqn:Hm; simpl; [|discriminate].
    intros [= ->].
    rewrite (search_users_listed s project_id query σ w (VList items) Hs Ha Hm).
    split; [reflexivity|].
    unfold result. simpl.
    intros users Hr u Hin.
    destruct (matching_users (str_lower query) items) as [us|e] eqn:Hu; simpl in Hr;
      [|discriminate].
    injection Hr as <-.
    destruct (matching_users_shape _ items us u Hu Hin) as (member & Hmem & Hmatch).
    destruct (match_member_sound _ member u Hmatch)
      as (user & full_name & username & email & Hrest).
    exists member, user, full_name, username, email. split; [exact Hmem|exact Hrest].
  - rewrite (get_project_members_invalid s project_id σ Hn). discriminate.
Qed.

End SearchProperties.

(* ===================================================================== *)
(** ** Further properties: tags *)
(* ===================================================================== *)

(** The characters of a string, put together again, give the string. *)
Lemma of_chars_cons_byte c w ws :
  Str.of_chars (String c w :: ws) = String c (Str.of_chars (w :: ws)).
Proof. reflexivity. Qed.

Lemma of_chars_chars s : Str.of_chars (Str.chars s) = s.
Proof.
  induction s as [|c s IH]; simpl; [reflexivity|].
  destruct (Str.chars s) as [|w ws]; simpl in *.
  - now rewrite <- IH.
  - destruct (Str.starts_with_continuation s); simpl; now rewrite <- IH.
Qed.

Lemma is_lead_unit g : is_lead g -> is_unit g.
Proof. destruct g; simpl; tauto. Qed.

Lemma leads_well_grouped l : Forall is_lead l -> well_grouped l.
Proof.
  destruct 1 as [|g rest Hg Hrest]; simpl; [exact I|].
  split; [now apply is_lead_unit|exact Hrest].
Qed.

Lemma chars_well_grouped s : well_grouped (Str.chars s).
Proof.
  induction s as [|c s IH]; simpl; [exact I|].
  pose proof (of_chars_chars s) as Hs.
  destruct (Str.chars s) as [|w ws]; simpl.
  - split; [reflexivity|constructor].
  - destruct IH as [Hw Hws].
    destruct w as [|a t]; [destruct Hw|].
    simpl in Hs. subst s. simpl.
    destruct (Str.is_continuation a) eqn:Ha; simpl.
    + split; [|exact Hws]. unfold continues in *. simpl. now rewrite Ha.
    + split; [reflexivity|]. constructor; [|exact Hws]. split; assumption.
Qed.

Lemma chars_of_group c t rest :
  continues t ->
  Forall is_lead rest ->
  Str.chars (Str.of_chars rest) = rest ->
  Str.chars (String c (t +:+ Str.of_chars rest)) = String c t :: rest.
Proof.
  intros Ht Hrest Hc. revert c. induction t as [|a t IH]; intros c.
  - change (Str.chars (String c (EmptyString +:+ Str.of_chars rest)))
      with (match Str.chars (Str.of_chars rest) with
            | [] => [String c EmptyString]
            | w :: ws =>
                if Str.starts_with_continuation (Str.of_chars rest) then String c w :: ws
                else String c EmptyString :: w :: ws
            end).
    rewrite Hc. destruct Hrest as [|w ws Hw Hws]; [reflexivity|].
    destruct w as [|b u]; [destruct Hw|]. destruct Hw as [Hb _].
    simpl. now rewrite Hb.
  - unfold continues in Ht. simpl in Ht. apply andb_prop in Ht as [Ha Ht].
    change (Str.chars (String c (String a t +:+ Str.of_chars rest)))
      with (match Str.chars (String a (t +:+ Str.of_chars rest)) with
            | [] => [String c EmptyString]
            | w :: ws =>
                if Str.is_continuation a then String c w :: ws
                else String c EmptyString :: w :: ws
            end).
    rewrite (IH Ht a), Ha. reflexivity.
Qed.

Lemma chars_of_leads l : Forall is_lead l -> Str.chars (Str.of_chars l) = l.
Proof.
  induction 1 as [|g rest Hg Hrest IH]; [reflexivity|].
  destruct g as [|c t]; [destruct Hg|]. destruct Hg as [_ Ht].
  exact (chars_of_group c t rest Ht Hrest IH).
Qed.

Lemma chars_of_chars l : well_grouped l -> Str.chars (Str.of_chars l) = l.
Proof.
  destruct l as [|g rest]; [reflexivity|]. intros [Hg Hrest].
  destruct g as [|c t]; [destruct Hg|].
  exact (chars_of_group c t rest Hg Hrest (chars_of_leads rest Hrest)).
Qed.

Lemma lstrip_Forall (P : string -> Prop) l : Forall P l -> Forall P (Str.lstrip l).
Proof.
  induction 1 as [|g rest Hg Hrest IH]; simpl; [constructor|].
  destruct (Str.is_space g); [exact IH|now constructor].
Qed.

Lemma rstrip_Forall (P : string -> Prop) l : Forall P l -> Forall P (Str.rstrip l).
Proof.
  induction 1 as [|g rest Hg Hrest IH]; simpl; [constructor|].
  destruct (Str.rstrip rest) as [|a t].
  - destruct (Str.is_space g); [constructor|now repeat constructor].
  - now constructor.
Qed.

Lemma lstrip_well_grouped l : well_grouped l -> well_grouped (Str.lstrip l).
Proof.
  destruct l as [|g rest]; simpl; [exact id|]. intros [Hg Hrest].
  destruct (Str.is_space g); [|now split].
  now apply leads_well_grouped, lstrip_Forall.
Qed.

Lemma rstrip_well_grouped l : well_grouped l -> well_grouped (Str.rstrip l).
Proof.
  destruct l as [|g rest]; simpl; [exact id|]. intros [Hg Hrest].
  pose proof (rstrip_Forall is_lead rest Hrest) as Hr.
  destruct (Str.rstrip rest) as [|a t].
  - destruct (Str.is_space g); [exact I|]. split; [exact Hg|constructor].
  - split; assumption.
Qed.

Lemma lstrip_starts_clean l : starts_clean (Str.lstrip l).
Proof.
  induction l as [|c l IH]; simpl; [exact I|].
  destruct (Str.is_space c) eqn:E; [exact IH|exact E].
Qed.

Lemma lstrip_of_starts_clean l : starts_clean l -> Str.lstrip l = l.
Proof. destruct l as [|c l]; simpl; [reflexivity|]. now intros ->. Qed.

Lemma rstrip_starts_clean l : starts_clean l -> starts_clean (Str.rstrip l).
Proof.
  destruct l as [|c l]; simpl; [exact id|]. intros Hc.
  destruct (Str.rstrip l); [rewrite Hc|]; exact Hc.
Qed.

Lemma rstrip_idempotent l : Str.rstrip (Str.rstrip l) = Str.rstrip l.
Proof.
  induction l as [|c l IH]; simpl; [reflexivity|].
  destruct (Str.rstrip l) as [|a t] eqn:Hr.
  - destruct (Str.is_space c) eqn:E; simpl; [reflexivity|now rewrite E].
  - change (Str.rstrip (c :: a :: t))
      with (match Str.rstrip (a :: t) with
            | [] => if Str.is_space c then [] else [c]
            | t' => c :: t'
            end).
    rewrite IH. reflexivity.
Qed.

Lemma strip_idempotent s : Str.strip (Str.strip s) = Str.strip s.
Proof.
  unfold Str.strip.
  rewrite chars_of_chars
    by apply rstrip_well_grouped, lstrip_well_grouped, chars_well_grouped.
  rewrite (lstrip_of_starts_clean (Str.rstrip (Str.lstrip (Str.chars s)))).
  - now rewrite rstrip_idempotent.
  - apply rstrip_starts_clean, lstrip_starts_clean.
Qed.

Lemma comma_free_cons c s :
  comma_free (String c s) = negb (Ascii.eqb c ",") && comma_free s.
Proof. reflexivity. Qed.

Lemma comma_free_append a b :
  comma_free (a +:+ b) = comma_free a && comma_free b.
Proof.
  induction a as [|c a IH]; [reflexivity|].
  change (String c a +:+ b) with (String c (a +:+ b)).
  now rewrite !comma_free_cons, IH, andb_assoc.
Qed.

Lemma comma_free_of_chars l :
  Forall (fun g => comma_free g = true) l -> comma_free (Str.of_chars l) = true.
Proof.
  induction 1 as [|g rest Hg Hrest IH]; [reflexivity|].
  simpl. now rewrite comma_free_append, Hg, IH.
Qed.

Lemma comma_free_chars l :
  comma_free (Str.of_chars l) = true -> Forall (fun g => comma_free g = true) l.
Proof.
  induction l as [|g rest IH]; [constructor|]. simpl.
  rewrite comma_free_append. intros Hc. apply andb_prop in Hc as [Hg Hrest].
  constructor; [exact Hg|exact (IH Hrest)].
Qed.

Lemma strip_comma_free s : comma_free s = true -> comma_free (Str.strip s) = true.
Proof.
  intros Hc. unfold Str.strip.
  apply comma_free_of_chars, rstrip_Forall, lstrip_Forall, comma_free_chars.
  now rewrite of_chars_chars.
Qed.

Lemma split_fields_comma_free s x :
  In x (Str.split "," s) -> comma_free x = true.
Proof.
  revert x. induction s as [|c s IH]; simpl; intros x Hin.
  - destruct Hin as [<-|[]]. reflexivity.
  - destruct (Ascii.eqb c ",") eqn:E.
    + destruct Hin as [<-|Hin]; [reflexivity|now apply IH].
    + destruct (Str.split "," s) as [|f fs].
      * destruct Hin as [<-|[]]. rewrite comma_free_cons, E. reflexivity.
      * destruct Hin as [<-|Hin].
        -- rewrite comma_free_cons, E. simpl. apply IH. now left.
        -- apply IH. now right.
Qed.

Lemma split_comma_free t : comma_free t = true -> Str.split "," t = [t].
Proof.
  induction t as [|c t IH]; simpl; [reflexivity|]. intros Hc.
  rewrite comma_free_cons in Hc. apply andb_prop in Hc as [Hc1 Hc2].
  apply negb_true_iff in Hc1. rewrite Hc1, (IH Hc2). reflexivity.
Qed.

Lemma split_append t rest :
  comma_free t = true ->
  Str.split "," (t +:+ String "," rest) = t :: Str.split "," rest.
Proof.
  induction t as [|c t IH]; simpl; [reflexivity|]. intros Hc.
  rewrite comma_free_cons in Hc. apply andb_prop in Hc as [Hc1 Hc2].
  apply negb_true_iff in Hc1. rewrite Hc1, (IH Hc2). reflexivity.
Qed.

Lemma split_join (l : list string) :
  Forall (fun t => comma_free t = true) l ->
  l <> [] ->
  Str.split "," (Py.join "," l) = l.
Proof.
  induction l as [|x l IH]; intros Hall Hne; [contradiction|].
  apply Forall_cons_iff in Hall as [Hx Hl].
  destruct l as [|y l].
  - simpl. now apply split_comma_free.
  - change (Py.join "," (x :: y :: l)) with (x +:+ String "," (Py.join "," (y :: l))).
    rewrite (split_append x _ Hx), IH; [reflexivity|exact Hl|discriminate].
Qed.

Lemma parsed_tag_is_clean (s t : string) :
  In t (Str.parse_tags s) -> clean_tag t.
Proof.
  unfold Str.parse_tags. intros Hin.
  apply List.filter_In in Hin as [Hin Hne].
  apply List.in_map_iff in Hin as (x & <- & Hx).
  split; [|split].
  - intros He. rewrite He in Hne. discriminate.
  - apply strip_comma_free. exact (split_fields_comma_free s x Hx).
  - apply strip_idempotent.
Qed.


Lemma parse_join_clean (l : list string) :
  Forall clean_tag l ->
  Str.parse_tags (Py.join "," l) = l.
Proof.
  intros Hall. destruct l as [|x l]; [reflexivity|].
  unfold Str.parse_tags. rewrite split_join; [| |discriminate].
  - induction Hall as [|t ts (Hne & _ & Hs) _ IH]; [reflexivity|].
    simpl. rewrite Hs.
    destruct (String.eqb t "") eqn:E.
    + apply String.eqb_eq in E. contradiction.
    + simpl. f_equal. exact IH.
  - eapply List.Forall_impl; [|exact Hall]. intros t (_ & Hc & _). exact Hc.
Qed.

(** X22.  Joining clean tags with commas and parsing the result gives
    the same tags back, in the same order: nothing is lost, split or
    merged on the way from [add_task_tags] to [update_task]. *)
Theorem parse_tags_join_round_trip (l : list string) :
  Forall clean_tag l ->
  Str.parse_tags (Py.join "," l) = l.
Proof. exact (parse_join_clean l). Qed.

Lemma eqb_str_true a v : Py.eqb (VStr a) v = true <-> v = VStr a.
Proof.
  destruct v; simpl; try (split; [discriminate|intros [=]]).
  rewrite String.eqb_eq. split; [intros ->; reflexivity|intros [= ->]; reflexivity].
Qed.

Lemma existsb_eqb_str a seen :
  existsb (Py.eqb (VStr a)) seen = true <-> In (VStr a) seen.
Proof.
  rewrite List.existsb_exists. split.
  - intros (v & Hin & He). apply eqb_str_true in He as ->. exact Hin.
  - intros Hin. exists (VStr a). split; [exact Hin|]. now apply eqb_str_true.
Qed.

Lemma eqb_non_str x y : is_str x = false -> Py.eqb x y = true -> is_str y = false.
Proof. destruct x, y; simpl; try reflexivity; discriminate. Qed.

Lemma distinct_Forall (P : value -> Prop) seen l :
  Forall P l -> Forall P (Py.distinct seen l).
Proof.
  intros Hall. revert seen. induction Hall as [|x l Hx _ IH]; intros seen; simpl.
  - constructor.
  - destruct (existsb (Py.eqb x) seen); [apply IH|constructor; [exact Hx|apply IH]].
Qed.

Lemma distinct_in_str a seen l :
  In (VStr a) (Py.distinct seen l) <-> In (VStr a) l /\ ~ In (VStr a) seen.
Proof.
  revert seen. induction l as [|x l IH]; intros seen; simpl.
  - tauto.
  - destruct (Py.eqb (VStr a) x) eqn:Hx.
    + apply eqb_str_true in Hx as ->.
      destruct (existsb (Py.eqb (VStr a)) seen) eqn:He.
      * apply existsb_eqb_str in He. rewrite IH. tauto.
      * assert (Hn : ~ In (VStr a) seen).
        { intros Hin. apply existsb_eqb_str in Hin. congruence. }
        simpl. tauto.
    + assert (Hne : x <> VStr a).
      { intros ->. rewrite (proj2 (eqb_str_true a (VStr a)) eq_refl) in Hx. discriminate. }
      destruct (existsb (Py.eqb x) seen).
      * rewrite IH. tauto.
      * simpl. rewrite IH. simpl. tauto.
Qed.

Lemma distinct_NoDup_str seen l :
  Forall (fun v => is_str v = true) l -> List.NoDup (Py.distinct seen l).
Proof.
  intros Hall. revert seen. induction Hall as [|x l Hx _ IH]; intros seen; simpl.
  - constructor.
  - destruct (existsb (Py.eqb x) seen); [apply IH|].
    constructor; [|apply IH].
    destruct x; try discriminate.
    rewrite distinct_in_str. simpl. tauto.
Qed.

Lemma distinct_keeps_non_str x seen l :
  In x l ->
  existsb (Py.eqb x) seen = true \/
  exists y, In y (Py.distinct seen l) /\ (y = x \/ Py.eqb x y = true).
Proof.
  revert seen. induction l as [|x0 l IH]; intros seen Hin; [destruct Hin|].
  simpl. destruct (existsb (Py.eqb x0) seen) eqn:He.
  - destruct Hin as [->|Hin]; [now left|apply IH, Hin].
  - destruct Hin as [->|Hin].
    + right. exists x. split; [now left|now left].
    + destruct (IH (x0 :: seen) Hin) as [Hs|(y & Hy & Hxy)].
      * simpl in Hs. apply orb_prop in Hs as [Hs|Hs].
        -- right. exists x0. split; [now left|now right].
        -- now left.
      * right. exists y. split; [now right|exact Hxy].
Qed.

Lemma find_unhashable_strs l :
  Forall (fun v => is_str v = true) l ->
  List.find (fun v => negb (Py.hashable v)) l = None.
Proof.
  induction 1 as [|x l Hx _ IH]; simpl; [reflexivity|].
  destruct x; try discriminate. simpl. exact IH.
Qed.

Lemma strs_of_values l :
  Forall (fun v => is_str v = true) l -> exists strs, l = List.map VStr strs.
Proof.
  induction 1 as [|x l Hx _ (strs & ->)]; [now exists []|].
  destruct x as [| | |t| |]; try discriminate. now exists (t :: strs).
Qed.

Lemma join_values_strs sep i strs :
  Py.join_values sep i (List.map VStr strs) = Returned strs.
Proof.
  revert i. induction strs as [|t strs IH]; intros i; simpl; [reflexivity|].
  now rewrite IH.
Qed.

Lemma join_values_non_str sep i l :
  (exists y, In y l /\ is_str y = false) ->
  exists msg, Py.join_values sep i l = Raised (Exn TypeError msg).
Proof.
  revert i. induction l as [|x l IH]; intros i (y & Hin & Hy); [destruct Hin|].
  destruct x as [| | |t| |]; simpl; try (eexists; reflexivity).
  destruct Hin as [<-|Hin]; [discriminate|].
  destruct (IH (S i) (ex_intro _ y (conj Hin Hy))) as (msg & ->). now exists msg.
Qed.

Section TagProperties.

Context {B : Type} `{TaigaApi B} {U : PyUnicode}.

Variable set_order : list value -> list value.

Implicit Types (σ : world B) (w : TaigaClientWrapper) (e : exn).

Lemma tags_change_set joined :
  change_set (UpdateTask (tags_only (VStr joined)) [])
  = Returned [("tags", VList (List.map VStr (Str.parse_tags joined)))].
Proof. reflexivity. Qed.

(** [add_task_tags] with a valid session: its own fetch, then either an
    exception on the way to the joined tags, or [update_task]'s body in
    the world the fetch left. *)
Lemma add_task_tags_run s task_id new_tags σ w :
  active_sessions σ !! s = Some w ->
  is_authenticated w = true ->
  add_task_tags set_order s task_id new_tags σ =
  let fetch := api_request w (resource_get tasks task_id) (environment σ) in
  let σ1 := World (snd fetch) (active_sessions σ)
                  (api_log σ ++ [(w, resource_get tasks task_id)]) in
  match joined_tags set_order new_tags (fst fetch) with
  | Raised e => (Raised (surfaced "adding" "task tags" e), σ1)
  | Returned joined =>
      (surface "adding" "task tags"
         (fst (update_entity tasks w task_id
                 [("tags", VList (List.map VStr (Str.parse_tags joined)))] σ1)),
       snd (update_entity tasks w task_id
              [("tags", VList (List.map VStr (Str.parse_tags joined)))] σ1))
  end.
Proof.
  intros Hs Ha. unfold add_task_tags. unfold bind at 1.
  rewrite (get_authenticated_client_ok σ s w Hs Ha).
  unfold try_except. unfold bind at 1. rewrite call_run. cbv zeta.
  unfold joined_tags.
  destruct (fst (api_request w (resource_get tasks task_id) (environment σ)))
    as [current_task|e]; simpl; [|apply standard_handlers_run].
  unfold bind at 1. unfold lift at 1.
  destruct (py_get current_task "tags" (VList [])) as [current_tags|e]; simpl;
    [|apply standard_handlers_run].
  unfold bind at 1. unfold lift at 1.
  destruct (Py.add_list current_tags _) as [combined|e]; simpl;
    [|apply standard_handlers_run].
  unfold bind at 1. unfold lift at 1.
  destruct (Py.list_of_set set_order combined) as [all_tags|e]; simpl;
    [|apply standard_handlers_run].
  unfold bind at 1. unfold lift at 1.
  destruct (Py.str_join "," all_tags) as [joined|e]; simpl;
    [|apply standard_handlers_run].
  change (update_task s task_id (tags_only (VStr joined)) [])
    with (run_update (UpdateTask (tags_only (VStr joined)) []) s task_id).
  match goal with |- context [run_update _ s task_id ?σ1] => set (σ1' := σ1) end.
  rewrite (run_update_valid (UpdateTask (tags_only (VStr joined)) []) s task_id σ1' w
             _ Hs Ha (tags_change_set joined)).
  simpl resource_of.
  destruct (update_entity tasks w task_id _ σ1') as [[res|e] σ2]; simpl;
    [reflexivity|apply standard_handlers_run].
Qed.

(** The joined tags when the task's tags are clean strings. *)
Lemma joined_tags_clean new_tags current existing :
  (forall l, Permutation (set_order l) l) ->
  py_get current "tags" (VList []) = Returned (VList (List.map VStr existing)) ->
  Forall clean_tag existing ->
  exists strs,
    set_order (Py.distinct [] (List.map VStr (existing ++ Str.parse_tags new_tags)))
      = List.map VStr strs /\
    joined_tags set_order new_tags (Returned current) = Returned (Py.join "," strs) /\
    Str.parse_tags (Py.join "," strs) = strs.
Proof.
  intros Hperm Htags Hclean.
  set (all := existing ++ Str.parse_tags new_tags).
  assert (Hall : Forall clean_tag all).
  { apply Forall_app. split; [exact Hclean|].
    apply Forall_forall. intros t Ht. apply list_elem_of_In in Ht.
    exact (parsed_tag_is_clean new_tags t Ht). }
  set (merged := set_order (Py.distinct [] (List.map VStr all))).
  assert (Hmerged : Forall (fun v => exists t, v = VStr t /\ clean_tag t) merged).
  { eapply Permutation_Forall; [symmetry; apply Hperm|].
    apply distinct_Forall. apply Forall_forall. intros v Hv.
    apply list_elem_of_In, List.in_map_iff in Hv as (t & <- & Ht).
    exists t. split; [reflexivity|].
    rewrite Forall_forall in Hall. apply Hall, list_elem_of_In, Ht. }
  assert (Hstrs : exists strs, merged = List.map VStr strs /\ Forall clean_tag strs).
  { clear -Hmerged. induction Hmerged as [|v l (t & -> & Ht) _ (strs & -> & Hs)].
    - exists []. split; [reflexivity|constructor].
    - exists (t :: strs). split; [reflexivity|now constructor]. }
  destruct Hstrs as (strs & Hm & Hs). exists strs.
  split; [exact Hm|]. split; [|exact (parse_join_clean strs Hs)].
  unfold joined_tags. simpl. rewrite Htags. simpl.
  rewrite <- List.map_app. fold all.
  unfold Py.list_of_set. rewrite find_unhashable_strs.
  - simpl. fold merged. rewrite Hm. unfold Py.str_join.
    now rewrite join_values_strs.
  - apply Forall_forall. intros v Hv.
    apply list_elem_of_In, List.in_map_iff in Hv as (t & <- & _). reflexivity.
Qed.

(** X23.  Let the set order be a permutation, the session valid, the
    task's tags a list of clean strings (or absent), and let
    [update_task]'s own fetch give a version.  Then [add_task_tags]
    issues a [get], a second [get] and one [edit], tagged with the version
    of the second [get], whose only key is [tags]; the tags sent are the
    old and the new tags, each exactly once, in the set's order. *)
Theorem add_task_tags_merges s task_id new_tags σ w current existing v :
  (forall l, Permutation (set_order l) l) ->
  active_sessions σ !! s = Some w ->
  is_authenticated w = true ->
  fst (api_request w (resource_get tasks task_id) (environment σ)) = Returned current ->
  py_get current "tags" (VList []) = Returned (VList (List.map VStr existing)) ->
  Forall clean_tag existing ->
  let b1 := snd (api_request w (resource_get tasks task_id) (environment σ)) in
  fetched_version (fst (api_request w (resource_get tasks task_id) b1)) = Some v ->
  let merged :=
    set_order (Py.distinct [] (List.map VStr (existing ++ Str.parse_tags new_tags))) in
  let run := add_task_tags set_order s task_id new_tags σ in
  api_log (final run)
    = api_log σ ++ [(w, resource_get tasks task_id);
                    (w, resource_get tasks task_id);
                    (w, resource_edit tasks task_id v [("tags", VList merged)])] /\
  List.NoDup merged /\
  (forall t, In (VStr t) merged <-> In t existing \/ In t (Str.parse_tags new_tags)).
Proof.
  intros Hperm Hs Ha Hf Htags Hclean. cbv zeta. intros Hv.
  destruct (joined_tags_clean new_tags current existing Hperm Htags Hclean)
    as (strs & Hm & Hj & Hrt).
  rewrite (add_task_tags_run s task_id new_tags σ w Hs Ha). cbv zeta.
  rewrite Hf, Hj, Hrt, <- Hm.
  match goal with |- context [update_entity tasks w task_id ?d ?σ1] =>
    rewrite (update_entity_with_version tasks w task_id d σ1 v eq_refl Hv)
  end.
  cbv zeta.
  match goal with |- context [repeated_keyword tasks ?d] =>
    change (repeated_keyword tasks d) with (@None string)
  end.
  cbv iota. unfold final. simpl.
  split; [now rewrite <- app_assoc|].
  assert (Hstr : Forall (fun x => is_str x = true)
                   (List.map VStr (existing ++ Str.parse_tags new_tags))).
  { apply Forall_forall. intros x Hx.
    apply list_elem_of_In, List.in_map_iff in Hx as (t & <- & _). reflexivity. }
  split.
  - eapply Permutation_NoDup; [symmetry; apply Hperm|].
    now apply distinct_NoDup_str.
  - intros t. split.
    + intros Hin. apply (Permutation_in _ (Hperm _)) in Hin.
      apply distinct_in_str in Hin as [Hin _].
      apply List.in_map_iff in Hin as (t' & [= ->] & Hin).
      now apply List.in_app_or.
    + intros Hin. apply (Permutation_in _ (Permutation_sym (Hperm _))).
      apply distinct_in_str. split; [|intros []].
      apply List.in_map, List.in_or_app, Hin.
Qed.

Lemma add_task_tags_invalid s task_id new_tags σ :
  (~ exists w, active_sessions σ !! s = Some w /\ is_authenticated w = true) ->
  add_task_tags set_order s task_id new_tags σ
  = (Raised (Exn PermissionError (invalid_session_message s)), σ).
Proof.
  intros Hn. unfold add_task_tags. unfold bind at 1. unfold get_authenticated_client.
  destruct (active_sessions σ !! s) as [w|] eqn:Hs; [|reflexivity].
  destruct (is_authenticated w) eqn:Ha; [|reflexivity].
  exfalso. apply Hn. eauto.
Qed.

(** X24.  When the task's tags hold anything but strings (for instance
    pairs of a name and a colour), [add_task_tags] cannot merge them:
    with a valid session it raises a [RuntimeError] after its first
    [get], and issues no other call, so no [edit]. *)
Theorem add_task_tags_rejects_non_strings s task_id new_tags σ w current tag_values x :
  (forall l, Permutation (set_order l) l) ->
  active_sessions σ !! s = Some w ->
  is_authenticated w = true ->
  fst (api_request w (resource_get tasks task_id) (environment σ)) = Returned current ->
  py_get current "tags" (VList []) = Returned (VList tag_values) ->
  In x tag_values ->
  is_str x = false ->
  let run := add_task_tags set_order s task_id new_tags σ in
  (exists msg, result run = Raised (Exn RuntimeError msg)) /\
  api_log (final run) = api_log σ ++ [(w, resource_get tasks task_id)].
Proof.
  intros Hperm Hs Ha Hf Htags Hin Hx. cbv zeta.
  rewrite (add_task_tags_run s task_id new_tags σ w Hs Ha). cbv zeta. rewrite Hf.
  assert (Hj : exists msg,
            joined_tags set_order new_tags (Returned current)
            = Raised (Exn TypeError msg)).
  { unfold joined_tags. simpl. rewrite Htags. simpl.
    set (combined := tag_values ++ List.map VStr (Str.parse_tags new_tags)).
    unfold Py.list_of_set.
    destruct (List.find _ combined) as [u|]; simpl; [eexists; reflexivity|].
    unfold Py.str_join.
    destruct (join_values_non_str "," 0 (set_order (Py.distinct [] combined)))
      as (msg & ->); [|now exists msg].
    assert (Hc : In x combined) by (apply List.in_or_app; now left).
    destruct (distinct_keeps_non_str x [] combined Hc) as [Hs'|(y & Hy & Hxy)];
      [discriminate|].
    exists y. split.
    - apply (Permutation_in _ (Permutation_sym (Hperm _))), Hy.
    - destruct Hxy as [->|Hxy]; [exact Hx|exact (eqb_non_str x y Hx Hxy)]. }
  destruct Hj as (msg & ->). unfold result, final. simpl.
  split; [eexists; reflexivity|reflexivity].
Qed.

(** X25.  Whatever the session, the arguments, the backend and the set
    order, [add_task_tags] leaves [active_sessions] alone and issues
    nothing, or one [get], or two, or two followed by one [edit] of the
    task: it never writes before it has read twice, and never writes
    twice. *)
Theorem add_task_tags_call_shape s task_id new_tags σ :
  let run := add_task_tags set_order s task_id new_tags σ in
  active_sessions (final run) = active_sessions σ /\
  exists issued,
    api_log (final run) = api_log σ ++ issued /\
    (issued = [] \/
     exists w, active_sessions σ !! s = Some w /\
       let fetch := (w, resource_get tasks task_id) in
       (issued = [fetch] \/ issued = [fetch; fetch] \/
        exists v d, issued = [fetch; fetch; (w, resource_edit tasks task_id v d)])).
Proof.
  cbv zeta. destruct (valid_session_dec σ s) as [(w & Hs & Ha)|Hn].
  - rewrite (add_task_tags_run s task_id new_tags σ w Hs Ha). cbv zeta.
    destruct (joined_tags set_order new_tags _) as [joined|e].
    + match goal with |- context [update_entity tasks w task_id ?d ?σ1] =>
        set (d' := d); set (σ1' := σ1)
      end.
      destruct (fetched_version
                  (fst (api_request w (resource_get tasks task_id) (environment σ1'))))
        as [v|] eqn:Hv.
      * rewrite (update_entity_with_version tasks w task_id d' σ1' v eq_refl Hv).
        cbv zeta. change (repeated_keyword tasks d') with (@None string). cbv iota.
        unfold final. simpl. split; [reflexivity|].
        eexists. split; [symmetry; apply app_assoc|].
        right. exists w. split; [exact Hs|]. right. right. exists v, d'. reflexivity.
      * rewrite (update_entity_no_version tasks w task_id d' σ1' eq_refl Hv).
        unfold final. simpl. split; [reflexivity|].
        eexists. split; [symmetry; apply app_assoc|].
        right. exists w. split; [exact Hs|]. right. left. reflexivity.
    + unfold final. simpl. split; [reflexivity|].
      eexists. split; [reflexivity|].
      right. exists w. split; [exact Hs|]. left. reflexivity.
  - rewrite (add_task_tags_invalid s task_id new_tags σ Hn). unfold final. simpl.
    split; [reflexivity|]. exists []. split; [symmetry; apply app_nil_r|now left].
Qed.

End TagProperties.

(* ===================================================================== *)
(** ** The further properties on the sample environments *)
(* ===================================================================== *)

Lemma sample_no_session (s : string) :
  active_sessions world0 !! s = None ->
  ~ exists w, active_sessions world0 !! s = Some w /\ is_authenticated w = true.
Proof. intros Hs (w & Hw & _). rewrite Hs in Hw. discriminate. Qed.

Lemma sample_members_listed :
  fst (api_request alice (memberships_list (project_query 1)) (environment world0))
  = Returned members.
Proof. reflexivity. Qed.

(** The sample's [users.me()] answers with alice's name. *)
Lemma session_status_active_witness :
  result (session_status sid world0)
  = Returned (VDict [("status", VStr "active"); ("session_id", VStr sid);
                     ("username", VStr "alice")]).
Proof.
  assert (Hme : fst (api_request alice users_me (environment world0))
                = Returned (VDict [("username", VStr "alice")])) by reflexivity.
  exact (proj1 (session_status_active world0 sid alice _ eq_refl eq_refl Hme)).
Defined.

(** A login on the sample backend draws the id at the head of its list. *)
Lemma login_success_registers_witness :
  result (login "https://x.example" "alice" "goodpw" world0)
    = Returned (VDict [("session_id", VStr "7c9e6679-7425-40de-944b-e07fc1f90ae7")]) /\
  active_sessions (final (login "https://x.example" "alice" "goodpw" world0))
    !! "7c9e6679-7425-40de-944b-e07fc1f90ae7" = Some alice.
Proof.
  assert (Hl : wrapper_login "https://x.example" "alice" "goodpw" (environment world0)
               = (Returned (true, alice), backend0)) by reflexivity.
  destruct (login_success_registers world0 "https://x.example" "alice" "goodpw"
              alice backend0 Hl) as (Hr & Hs & _).
  split; [exact Hr|exact Hs].
Defined.

Lemma login_logout_round_trip_witness :
  active_sessions
    (final (logout "7c9e6679-7425-40de-944b-e07fc1f90ae7"
              (final (login "https://x.example" "alice" "goodpw" world0))))
  = active_sessions world0.
Proof.
  assert (Hl : wrapper_login "https://x.example" "alice" "goodpw" (environment world0)
               = (Returned (true, alice), backend0)) by reflexivity.
  assert (Hfresh : active_sessions world0 !! fst (uuid4 backend0) = None) by reflexivity.
  exact (proj2 (login_logout_round_trip world0 "https://x.example" "alice" "goodpw"
                  alice backend0 Hl Hfresh)).
Defined.

Lemma logout_keeps_other_sessions_witness :
  result (get_authenticated_client sid (final (logout "someone-else" world0)))
  = result (get_authenticated_client sid world0).
Proof.
  apply (logout_keeps_other_sessions world0 "someone-else" sid). discriminate.
Defined.

(** The version error of entity 43 is a [RuntimeError]. *)
Lemma update_error_classes_witness :
  update_error_class (exn_class_of (version_unavailable user_stories 43)) = true /\
  exn_class_of (version_unavailable user_stories 43) <> ValueError.
Proof.
  assert (Hr : result (run_update (UpdateUserStory new_title) sid 43 world0)
               = Raised (version_unavailable user_stories 43)) by reflexivity.
  destruct (update_error_classes (UpdateUserStory new_title) sid 43 world0 _ Hr)
    as (Hc & Hv & _).
  split; [exact Hc|exact Hv].
Defined.

(** [milestone_id=3] with [milestone=5] among the keyword arguments sends
    5; [assigned_to=0] is sent although 0 is false. *)
Lemma task_change_set_lookup_witness :
  let f := TaskFields VNone VNone VNone VNone (VInt 0) (VInt 3) VNone VNone in
  let d := [("assigned_to", VInt 0); ("milestone", VInt 5)] in
  Dict.get "milestone" d = Some (VInt 5) /\ Dict.get "assigned_to" d = Some (VInt 0).
Proof.
  cbv zeta.
  assert (Hu : unique_keys [("milestone", VInt 5)]).
  { unfold unique_keys. simpl. constructor; [intros []|constructor]. }
  split.
  - exact (task_change_set_lookup
             (TaskFields VNone VNone VNone VNone (VInt 0) (VInt 3) VNone VNone)
             [("milestone", VInt 5)] _ "milestone" Hu eq_refl).
  - exact (task_change_set_lookup
             (TaskFields VNone VNone VNone VNone (VInt 0) (VInt 3) VNone VNone)
             [("milestone", VInt 5)] _ "assigned_to" Hu eq_refl).
Defined.

Lemma assign_edits_witness :
  api_log (final (assign_task_to_user sid 42 3 world0))
  = api_log world0 ++ [(alice, resource_get tasks 42);
                       (alice, resource_edit tasks 42 (VInt 7) [("assigned_to", VInt 3)])].
Proof.
  assert (Hv : fetched_version
                 (fst (api_request alice (resource_get tasks 42) (environment world0)))
               = Some (VInt 7)) by reflexivity.
  exact (proj1 (assign_edits tasks sid 42 3 world0 alice (VInt 7)
                  (assign_task_to_user sid 42 3) eq_refl eq_refl eq_refl Hv)).
Defined.


Lemma assign_by_username_error_classes_witness :
  Exn ValueError (no_user_message "zed" 1) = Exn ValueError (no_user_message "zed" 1) \/
  Exn ValueError (no_user_message "zed" 1) = handler_arity_error.
Proof.
  assert (Hr : result (assign_task_by_username sid 42 1 "zed" world0)
               = Raised (Exn ValueError (no_user_message "zed" 1))) by reflexivity.
  exact (assign_by_username_error_classes sid 42 1 "zed" world0 _ Hr).
Defined.

Lemma assign_by_username_invalid_session_witness :
  assign_task_by_username "no-such-session" 42 1 "bob" world0
  = (Raised handler_arity_error, world0).
Proof.
  apply assign_by_username_invalid_session.
  apply sample_no_session. reflexivity.
Defined.

Lemma search_empty_query_matches_all_witness :
  exists users, result (search_users sid 1 "" world0) = Returned users /\
                List.length users = 3%nat.
Proof.
  destruct (result (search_users sid 1 "" world0)) as [users|e] eqn:Hr;
    [|vm_compute in Hr; discriminate].
  exists users. split; [reflexivity|].
  exact (search_empty_query_matches_all sid 1 world0 alice sample_items users
           eq_refl eq_refl sample_members_listed Hr).
Defined.

Lemma search_users_entries_witness :
  exists users, result (search_users sid 1 "ali" world0) = Returned users /\
                forall u, In u users -> exists u_id, py_getitem u "id" = Returned u_id.
Proof.
  destruct (result (search_users sid 1 "ali" world0)) as [users|e] eqn:Hr;
    [|vm_compute in Hr; discriminate].
  exists users. split; [reflexivity|].
  intros u Hin.
  destruct (proj1 (search_users_entries sid 1 "ali" world0 users Hr) u Hin)
    as (u_id & _ & _ & _ & _ & _ & _ & Hid).
  exists u_id. exact Hid.
Defined.

Lemma search_users_over_project_members_witness :
  final (search_users sid 1 "BOB" world0) = final (get_project_members sid 1 world0) /\
  forall u, In u [bob_entry] ->
    exists member, In member sample_items /\
                   py_getitem u "role" = py_get member "role_name" VNone.
Proof.
  assert (Hr : result (get_project_members sid 1 world0) = Returned (VList sample_items))
    by reflexivity.
  destruct (search_users_over_project_members sid 1 "BOB" world0 sample_items Hr)
    as [Hfinal Hentries].
  split; [exact Hfinal|].
  intros u Hin.
  destruct (Hentries [bob_entry] eq_refl u Hin)
    as (member & user & fn & un & em & Hmem & _ & _ & _ & _ & _ & _ & _ & _ & _ & Hrole & _).
  exists member. split; [exact Hmem|exact Hrole].
Defined.


Lemma parse_tags_join_round_trip_witness :
  Str.parse_tags "frontend,needs review" = ["frontend"; "needs review"].
Proof.
  apply (parse_tags_join_round_trip ["frontend"; "needs review"]).
  repeat constructor; discriminate.
Defined.

Lemma newest_first_permutes (l : list value) : Permutation (TagSample.newest_first l) l.
Proof. symmetry. apply Permutation_rev. Qed.

(** Task 7 carries [backend] and [urgent]; adding ["urgent, api"] sends
    the three tags once each, with the version the second [get] gave. *)
Lemma add_task_tags_merges_witness :
  api_log (final (add_task_tags TagSample.newest_first TagSample.sid 7 "urgent, api"
                    (TagSample.world_of TagSample.task7)))
  = [(TagSample.carol, resource_get tasks 7);
     (TagSample.carol, resource_get tasks 7);
     (TagSample.carol,
      resource_edit tasks 7 (VInt 3)
        [("tags", VList [VStr "api"; VStr "urgent"; VStr "backend"])])].
Proof.
  assert (Hf : fst (api_request TagSample.carol (resource_get tasks 7)
                      (environment (TagSample.world_of TagSample.task7)))
               = Returned TagSample.task7) by reflexivity.
  assert (Hclean : Forall clean_tag ["backend"; "urgent"])
    by (repeat constructor; discriminate).
  assert (Hv : fetched_version
                 (fst (api_request TagSample.carol (resource_get tasks 7)
                         (snd (api_request TagSample.carol (resource_get tasks 7)
                                 (environment (TagSample.world_of TagSample.task7))))))
               = Some (VInt 3)) by reflexivity.
  exact (proj1 (add_task_tags_merges TagSample.newest_first TagSample.sid 7 "urgent, api"
                  (TagSample.world_of TagSample.task7) TagSample.carol TagSample.task7
                  ["backend"; "urgent"] (VInt 3)
                  newest_first_permutes eq_refl eq_refl Hf eq_refl Hclean Hv)).
Defined.

(** Task 8 carries a tag as a pair of name and colour. *)
Lemma add_task_tags_rejects_non_strings_witness :
  (exists msg, result (add_task_tags TagSample.newest_first TagSample.sid 8 "urgent"
                         (TagSample.world_of TagSample.task8))
               = Raised (Exn RuntimeError msg)) /\
  api_log (final (add_task_tags TagSample.newest_first TagSample.sid 8 "urgent"
                    (TagSample.world_of TagSample.task8)))
  = [(TagSample.carol, resource_get tasks 8)].
Proof.
  assert (Hf : fst (api_request TagSample.carol (resource_get tasks 8)
                      (environment (TagSample.world_of TagSample.task8)))
               = Returned TagSample.task8) by reflexivity.
  exact (add_task_tags_rejects_non_strings TagSample.newest_first TagSample.sid 8 "urgent"
           (TagSample.world_of TagSample.task8) TagSample.carol TagSample.task8
           [VList [VStr "backend"; VNone]] (VList [VStr "backend"; VNone])
           newest_first_permutes eq_refl eq_refl Hf eq_refl
           (or_introl eq_refl) eq_refl).
Defined.
